(** * The dashboard's synchronisation and submission engine (src/App.jsx)

    A shallow embedding of the [App] component's logic: [showToast],
    [fetchData], [handleIngest] and [formatTime].  React state is an explicit
    record, every closure reads the render it was created in, and each effect
    of the component (state setters, [fetch], [setTimeout], [console.error],
    [preventDefault]) is recorded in a trace, in program order. *)

From Stdlib Require Import ZArith NArith List String Ascii Bool Lia.
Import ListNotations.
Local Open Scope Z_scope.
Set Warnings "-register-all".

(** ** JavaScript values *)

Module Js.

(** A string is its sequence of UTF-16 code units. *)
Definition jsstring := list N.

(** The code units of an ASCII literal of the source. *)
Definition u16 (s : string) : jsstring :=
  map N_of_ascii (list_ascii_of_string s).

Fixpoint str_eqb (a b : jsstring) : bool :=
  match a, b with
  | [], [] => true
  | x :: a', y :: b' => N.eqb x y && str_eqb a' b'
  | _, _ => false
  end.

(** The values the component handles: what [JSON.parse] can produce, plus
    [undefined].  A number is an integer here (every numeric field of the
    data model is one); an object is the list of its own properties. *)
Inductive JsVal : Type :=
| JUndefined
| JNull
| JBool (b : bool)
| JNum (n : Z)
| JStr (s : jsstring)
| JArr (elems : list JsVal)
| JObj (props : list (jsstring * JsVal)).

(** What a [throw] carries, by the class of the error. *)
Inductive Exn : Type :=
| TypeError
| SyntaxError
| FetchRejected.

Inductive Result (A : Type) : Type :=
| Ok (a : A)
| Throw (e : Exn).
Arguments Ok {A} a.
Arguments Throw {A} e.

(** ToBoolean. *)
Definition truthy (v : JsVal) : bool :=
  match v with
  | JUndefined | JNull => false
  | JBool b => b
  | JNum n => negb (n =? 0)
  | JStr s => match s with [] => false | _ => true end
  | JArr _ | JObj _ => true
  end.

(** [a || b] *)
Definition js_or (a b : JsVal) : JsVal := if truthy a then a else b.

Definition nullish (v : JsVal) : bool :=
  match v with
  | JUndefined | JNull => true
  | _ => false
  end.

Fixpoint own (props : list (jsstring * JsVal)) (k : jsstring) : option JsVal :=
  match props with
  | [] => None
  | (k', v) :: rest => if str_eqb k' k then Some v else own rest k
  end.

Definition has_own (props : list (jsstring * JsVal)) (k : jsstring) : bool :=
  match own props k with Some _ => true | None => false end.

(** [v.k] for a name [k] that no prototype defines (the component reads
    [namespaces], [documents], [detail] and [name]): a [TypeError] on
    [undefined] and [null], the own property of an object, [undefined]
    elsewhere. *)
Definition get_prop (v : JsVal) (k : jsstring) : Result JsVal :=
  match v with
  | JUndefined | JNull => Throw TypeError
  | JObj props => Ok (match own props k with Some x => x | None => JUndefined end)
  | _ => Ok JUndefined
  end.

(** [v?.length] *)
Definition opt_length (v : JsVal) : JsVal :=
  match v with
  | JUndefined | JNull => JUndefined
  | JStr s => JNum (Z.of_nat (List.length s))
  | JArr l => JNum (Z.of_nat (List.length l))
  | JObj props => match own props (u16 "length") with Some x => x | None => JUndefined end
  | _ => JUndefined
  end.

(** [v[0]] *)
Definition get_first (v : JsVal) : Result JsVal :=
  match v with
  | JUndefined | JNull => Throw TypeError
  | JStr s => Ok (match s with [] => JUndefined | c :: _ => JStr [c] end)
  | JArr l => Ok (match l with [] => JUndefined | x :: _ => x end)
  | JObj props => Ok (match own props (u16 "0") with Some x => x | None => JUndefined end)
  | _ => Ok JUndefined
  end.

Fixpoint uint_units (d : Decimal.uint) : jsstring :=
  match d with
  | Decimal.Nil => []
  | Decimal.D0 d => 48%N :: uint_units d
  | Decimal.D1 d => 49%N :: uint_units d
  | Decimal.D2 d => 50%N :: uint_units d
  | Decimal.D3 d => 51%N :: uint_units d
  | Decimal.D4 d => 52%N :: uint_units d
  | Decimal.D5 d => 53%N :: uint_units d
  | Decimal.D6 d => 54%N :: uint_units d
  | Decimal.D7 d => 55%N :: uint_units d
  | Decimal.D8 d => 56%N :: uint_units d
  | Decimal.D9 d => 57%N :: uint_units d
  end.

(** Number::toString of an integer the engine holds exactly (below 2^53 in
    absolute value): its decimal digits.  The component prints counts of
    minutes and hours with it. *)
Definition Number_toString (n : Z) : jsstring :=
  match n with
  | Z0 => [48%N]
  | Zpos p => uint_units (Pos.to_uint p)
  | Zneg p => 45%N :: uint_units (Pos.to_uint p)
  end.

Definition comma : jsstring := [44%N].

(** ToString, as a template literal applies it.  An array joins its elements
    with commas ([undefined] and [null] give the empty string).  A parsed
    object has no callable property, so one that has a [toString] of its own
    cannot be converted ([TypeError]); any other prints as
    [[object Object]]. *)
Fixpoint to_string (v : JsVal) : Result jsstring :=
  match v with
  | JUndefined => Ok (u16 "undefined")
  | JNull => Ok (u16 "null")
  | JBool true => Ok (u16 "true")
  | JBool false => Ok (u16 "false")
  | JNum n => Ok (Number_toString n)
  | JStr s => Ok s
  | JArr l =>
      (fix join (l : list JsVal) : Result jsstring :=
         match l with
         | [] => Ok []
         | x :: rest =>
             match (if nullish x then Ok [] else to_string x) with
             | Throw e => Throw e
             | Ok sx =>
                 match rest with
                 | [] => Ok sx
                 | _ :: _ =>
                     match join rest with
                     | Throw e => Throw e
                     | Ok sr => Ok (sx ++ comma ++ sr)
                     end
                 end
             end
         end) l
  | JObj props =>
      if has_own props (u16 "toString") then Throw TypeError
      else Ok (u16 "[object Object]")
  end.

(** ** Whitespace and [String.prototype.trim] *)

(** WhiteSpace and LineTerminator code points of ECMAScript. *)
Definition is_white (c : N) : bool :=
  ((9 <=? c) && (c <=? 13) || (c =? 32) || (c =? 160) || (c =? 5760)
   || (8192 <=? c) && (c <=? 8202) || (c =? 8232) || (c =? 8233)
   || (c =? 8239) || (c =? 8287) || (c =? 12288) || (c =? 65279))%N.

Fixpoint trim_start (s : jsstring) : jsstring :=
  match s with
  | [] => []
  | c :: rest => if is_white c then trim_start rest else s
  end.

Definition trim (s : jsstring) : jsstring :=
  rev (trim_start (rev (trim_start s))).

End Js.
Export Js.

(** ** What the engine and the browser provide *)

(** The built-ins the component calls whose results the program does not
    determine. *)
Class Platform : Type := {
  (** whether StringToNumber of a string is greater than zero *)
  StringToNumber_pos : jsstring -> bool;
  (** [new Date(v)]: the time value in milliseconds, [None] for an
      Invalid Date *)
  Date_new : JsVal -> Result (option Z);
  (** [d.toLocaleDateString()] *)
  Date_toLocaleDateString : option Z -> jsstring
}.

(** [v > 0]: ToPrimitive with hint number, then the numeric comparison
    ([NaN] compares false). *)
Definition gt_zero `{Platform} (v : JsVal) : Result bool :=
  match v with
  | JUndefined | JNull => Ok false
  | JBool b => Ok b
  | JNum n => Ok (0 <? n)
  | JStr s => Ok (StringToNumber_pos s)
  | JArr _ =>
      match to_string v with
      | Ok s => Ok (StringToNumber_pos s)
      | Throw e => Throw e
      end
  | JObj props =>
      if has_own props (u16 "toString") then Throw TypeError else Ok false
  end.

(** ** The component *)

Module App.

Inductive ToastType : Type := success | error.

Record Toast : Type := { message : JsVal; type : ToastType }.

(** The nine [useState] cells of [App]. *)
Record AppState : Type := {
  namespaces : JsVal;
  recentDocs : JsVal;
  stats : JsVal;
  selectedNamespace : JsVal;
  filterNamespace : JsVal;
  text : jsstring;
  newNamespace : jsstring;
  loading : bool;
  toast : option Toast
}.

Definition initial : AppState := {|
  namespaces := JArr [];
  recentDocs := JArr [];
  stats := JObj [(u16 "total_documents", JNum 0); (u16 "vectorized", JNum 0)];
  selectedNamespace := JStr [];
  filterNamespace := JNull;
  text := [];
  newNamespace := [];
  loading := false;
  toast := None
|}.

(** A request, by endpoint ([API_URL] is a constant prefix of every URL).
    The [namespace] of [GET_recent] is the text line 27 splices after
    [&namespace=], as it is: [Url.url] gives the URL that results. *)
Inductive Request : Type :=
| GET_namespaces
| GET_stats
| GET_recent (limit : Z) (namespace : option jsstring)
| POST_ingest (body : JsVal).

(** A response: its status, and what [res.json()] resolves to ([None] when
    the body is not JSON and [res.json()] rejects). *)
Record Response : Type := { status : Z; body : option JsVal }.

(** [res.ok] *)
Definition ok (r : Response) : bool := (200 <=? status r) && (status r <=? 299).

(** How a [fetch] settles: the promise rejects (no response was obtained) or
    resolves to a response, whatever its status. *)
Inductive Outcome : Type :=
| Rejected
| Responded (r : Response).

Inductive Event : Type :=
| Ev_preventDefault
| Ev_fetch (r : Request)
| Ev_console_error (e : Exn)
| Ev_fetchData
| Ev_setNamespaces (v : JsVal)
| Ev_setStats (v : JsVal)
| Ev_setRecentDocs (v : JsVal)
| Ev_setSelectedNamespace (v : JsVal)
| Ev_setText (s : jsstring)
| Ev_setNewNamespace (s : jsstring)
| Ev_setLoading (b : bool)
| Ev_setToast (t : option Toast)
| Ev_setTimeout (ms : Z).

(** The state of the page: the React state, the due times of the pending
    [setTimeout] callbacks (each of them is [() => setToast(null)]) and the
    clock, in milliseconds. *)
Record World : Type := { app : AppState; timers : list Z; clock : Z }.

(** A computation updates the world, returns or throws, and leaves the
    trace of its effects. *)
Definition M (A : Type) : Type := World -> Result A * World * list Event.

Definition ret {A} (a : A) : M A := fun w => (Ok a, w, []).

Definition bind {A B} (m : M A) (k : A -> M B) : M B := fun w =>
  match m w with
  | (Ok a, w1, t1) => let '(r, w2, t2) := k a w1 in (r, w2, t1 ++ t2)
  | (Throw e, w1, t1) => (Throw e, w1, t1)
  end.

Definition lift {A} (r : Result A) : M A := fun w => (r, w, []).

Definition try_catch {A} (m : M A) (handler : Exn -> M A) : M A := fun w =>
  match m w with
  | (Ok a, w1, t1) => (Ok a, w1, t1)
  | (Throw e, w1, t1) => let '(r, w2, t2) := handler e w1 in (r, w2, t1 ++ t2)
  end.

Definition try_finally {A} (m : M A) (final : M unit) : M A := fun w =>
  let '(r, w1, t1) := m w in
  match final w1 with
  | (Ok _, w2, t2) => (r, w2, t1 ++ t2)
  | (Throw e, w2, t2) => (Throw e, w2, t1 ++ t2)
  end.

Declare Scope js_scope.
Delimit Scope js_scope with js.
Notation "x <- m ;; k" := (bind m (fun x => k))
  (at level 61, m at next level, right associativity) : js_scope.
Notation "m ;; k" := (bind m (fun _ => k))
  (at level 61, right associativity) : js_scope.
Local Open Scope js_scope.

Definition emit (e : Event) : M unit := fun w => (Ok tt, w, [e]).

Definition update (f : AppState -> AppState) (e : Event) : M unit :=
  fun w => (Ok tt, {| app := f (app w); timers := timers w; clock := clock w |}, [e]).

Definition with_namespaces v (s : AppState) : AppState :=
  {| namespaces := v; recentDocs := recentDocs s; stats := stats s;
     selectedNamespace := selectedNamespace s; filterNamespace := filterNamespace s;
     text := text s; newNamespace := newNamespace s; loading := loading s;
     toast := toast s |}.
Definition with_recentDocs v (s : AppState) : AppState :=
  {| namespaces := namespaces s; recentDocs := v; stats := stats s;
     selectedNamespace := selectedNamespace s; filterNamespace := filterNamespace s;
     text := text s; newNamespace := newNamespace s; loading := loading s;
     toast := toast s |}.
Definition with_stats v (s : AppState) : AppState :=
  {| namespaces := namespaces s; recentDocs := recentDocs s; stats := v;
     selectedNamespace := selectedNamespace s; filterNamespace := filterNamespace s;
     text := text s; newNamespace := newNamespace s; loading := loading s;
     toast := toast s |}.
Definition with_selectedNamespace v (s : AppState) : AppState :=
  {| namespaces := namespaces s; recentDocs := recentDocs s; stats := stats s;
     selectedNamespace := v; filterNamespace := filterNamespace s;
     text := text s; newNamespace := newNamespace s; loading := loading s;
     toast := toast s |}.
Definition with_text v (s : AppState) : AppState :=
  {| namespaces := namespaces s; recentDocs := recentDocs s; stats := stats s;
     selectedNamespace := selectedNamespace s; filterNamespace := filterNamespace s;
     text := v; newNamespace := newNamespace s; loading := loading s;
     toast := toast s |}.
Definition with_newNamespace v (s : AppState) : AppState :=
  {| namespaces := namespaces s; recentDocs := recentDocs s; stats := stats s;
     selectedNamespace := selectedNamespace s; filterNamespace := filterNamespace s;
     text := text s; newNamespace := v; loading := loading s;
     toast := toast s |}.
Definition with_loading v (s : AppState) : AppState :=
  {| namespaces := namespaces s; recentDocs := recentDocs s; stats := stats s;
     selectedNamespace := selectedNamespace s; filterNamespace := filterNamespace s;
     text := text s; newNamespace := newNamespace s; loading := v;
     toast := toast s |}.
Definition with_toast v (s : AppState) : AppState :=
  {| namespaces := namespaces s; recentDocs := recentDocs s; stats := stats s;
     selectedNamespace := selectedNamespace s; filterNamespace := filterNamespace s;
     text := text s; newNamespace := newNamespace s; loading := loading s;
     toast := v |}.

Definition setNamespaces v : M unit := update (with_namespaces v) (Ev_setNamespaces v).
Definition setRecentDocs v : M unit := update (with_recentDocs v) (Ev_setRecentDocs v).
Definition setStats v : M unit := update (with_stats v) (Ev_setStats v).
Definition setSelectedNamespace v : M unit :=
  update (with_selectedNamespace v) (Ev_setSelectedNamespace v).
Definition setText v : M unit := update (with_text v) (Ev_setText v).
Definition setNewNamespace v : M unit := update (with_newNamespace v) (Ev_setNewNamespace v).
Definition setLoading v : M unit := update (with_loading v) (Ev_setLoading v).
Definition setToast v : M unit := update (with_toast v) (Ev_setToast v).

(** [setTimeout(() => setToast(null), ms)]: one more pending callback, due
    [ms] after now.  The handle the call returns is dropped by the source. *)
Definition setTimeout_clearToast (ms : Z) : M unit := fun w =>
  (Ok tt,
   {| app := app w; timers := timers w ++ [clock w + ms]; clock := clock w |},
   [Ev_setTimeout ms]).

(** Time passes until [t] with no other event: every callback due by then
    runs (and clears the toast) and leaves the pending list. *)
Definition advance (t : Z) (w : World) : World :=
  {| app := if existsb (fun due => due <=? t) (timers w)
            then with_toast None (app w) else app w;
     timers := filter (fun due => t <? due) (timers w);
     clock := Z.max (clock w) t |}.

(** [fetch(...)]: the request goes out. *)
Definition fetch (req : Request) : M unit := emit (Ev_fetch req).

(** [await] of the promise of a request that settles as [o]. *)
Definition settle (o : Outcome) : M Response :=
  match o with
  | Rejected => lift (Throw FetchRejected)
  | Responded r => ret r
  end.

(** [await res.json()] *)
Definition json (r : Response) : M JsVal :=
  match body r with
  | Some v => ret v
  | None => lift (Throw SyntaxError)
  end.

Definition console_error (e : Exn) : M unit := emit (Ev_console_error e).

(** *** showToast (lines 17-20) *)

Definition showToast (message : JsVal) (type : ToastType) : M unit :=
  setToast (Some {| message := message; type := type |}) ;;
  setTimeout_clearToast 4000.

(** *** fetchData (lines 22-43) *)

(** The three [fetch] calls that build the argument of [Promise.all]
    (lines 24-28), in order.  [r] is the render whose [filterNamespace] and
    [selectedNamespace] the callback closes over. *)
Definition fetchData_requests (r : AppState) : M unit :=
  fetch GET_namespaces ;;
  fetch GET_stats ;;
  q <- (if truthy (filterNamespace r)
        then s <- lift (to_string (filterNamespace r)) ;; ret (Some s)
        else ret None) ;;
  fetch (GET_recent 10 q).

(** [await Promise.all([...])]: the three responses, or the rejection of the
    group when one of the requests rejects. *)
Definition Promise_all (o1 o2 o3 : Outcome) : M (Response * Response * Response) :=
  r1 <- settle o1 ;;
  r2 <- settle o2 ;;
  r3 <- settle o3 ;;
  ret (r1, r2, r3).

(** Lines 37-39: the default selection. *)
Definition deriveSelection `{Platform} (r : AppState) (nsData : JsVal) : M unit :=
  if negb (truthy (selectedNamespace r)) then
    nss <- lift (get_prop nsData (u16 "namespaces")) ;;
    positive <- lift (gt_zero (opt_length nss)) ;;
    if positive then
      first <- lift (get_first nss) ;;
      name <- lift (get_prop first (u16 "name")) ;;
      setSelectedNamespace name
    else ret tt
  else ret tt.

(** The body of the [try] block (lines 24-39). *)
Definition fetchData_try `{Platform} (r : AppState) (o1 o2 o3 : Outcome) : M unit :=
  fetchData_requests r ;;
  rs <- Promise_all o1 o2 o3 ;;
  let '(nsRes, statsRes, recentRes) := rs in
  nsData <- json nsRes ;;
  statsData <- json statsRes ;;
  recentData <- json recentRes ;;
  nss <- lift (get_prop nsData (u16 "namespaces")) ;;
  setNamespaces (js_or nss (JArr [])) ;;
  setStats statsData ;;
  docs <- lift (get_prop recentData (u16 "documents")) ;;
  setRecentDocs (js_or docs (JArr [])) ;;
  deriveSelection r nsData.

(** One sync, run to completion: the requests settle as [o1], [o2], [o3]. *)
Definition fetchData `{Platform} (r : AppState) (o1 o2 o3 : Outcome) : M unit :=
  emit Ev_fetchData ;;
  try_catch (fetchData_try r o1 o2 o3) console_error.

(** A call [fetchData()] that is not awaited: the callback runs up to its
    first [await], that is, it issues the requests; the rest of the sync
    happens after the caller has gone on. *)
Definition fetchData_call (r : AppState) : M unit :=
  emit Ev_fetchData ;;
  try_catch (fetchData_requests r) console_error.

(** A read request fails when its promise chain rejects: [fetch] rejects,
    or reading the body as JSON does.  [fetchData] never looks at the status
    of a response. *)
Definition fails (o : Outcome) : bool :=
  match o with
  | Rejected => true
  | Responded res => match body res with None => true | Some _ => false end
  end.

(** Whether render [r] gets its three requests out: the URL of the third is
    built from the filter, when there is one. *)
Definition sends_requests (r : AppState) : bool :=
  if truthy (filterNamespace r)
  then match to_string (filterNamespace r) with Ok _ => true | Throw _ => false end
  else true.

(** The state once lines 33-35 have run. *)
Definition applied (nss statsData docs : JsVal) (s : AppState) : AppState :=
  with_recentDocs (js_or docs (JArr []))
    (with_stats statsData (with_namespaces (js_or nss (JArr [])) s)).

(** *** handleIngest (lines 51-81) *)

Definition quote : jsstring := [34%N].
Definition check_mark : jsstring := [10003%N].
Definition em_dash : jsstring := [8212%N].

(** The template literal of line 69, with [ns] spliced in. *)
Definition ingested_message (ns : jsstring) : jsstring :=
  check_mark ++ u16 " Ingested into " ++ quote ++ ns ++ quote ++ u16 " "
  ++ em_dash ++ u16 " now queryable by the AI agent".

Definition required_message : jsstring := u16 "Namespace and text are required".
Definition failed_message : jsstring := u16 "Ingestion failed".
Definition network_message : jsstring :=
  u16 "Network error " ++ em_dash ++ u16 " is the backend running?".

(** [newNamespace.trim() || selectedNamespace] (line 53) *)
Definition target_namespace (r : AppState) : JsVal :=
  js_or (JStr (trim (newNamespace r))) (selectedNamespace r).

(** [!ns || !text.trim()] (line 54) *)
Definition invalid (r : AppState) : bool :=
  negb (truthy (target_namespace r)) || negb (truthy (JStr (trim (text r)))).

(** The object given to [JSON.stringify] (line 64). *)
Definition ingest_body (r : AppState) : JsVal :=
  JObj [(u16 "namespace", target_namespace r); (u16 "text", JStr (trim (text r)))].

(** The body of the [try] block (lines 61-75). *)
Definition handleIngest_try (r : AppState) (o : Outcome) : M unit :=
  fetch (POST_ingest (ingest_body r)) ;;
  res <- settle o ;;
  data <- json res ;;
  if ok res then
    ns <- lift (to_string (target_namespace r)) ;;
    showToast (JStr (ingested_message ns)) success ;;
    setText [] ;;
    setNewNamespace [] ;;
    fetchData_call r
  else
    detail <- lift (get_prop data (u16 "detail")) ;;
    showToast (js_or detail (JStr failed_message)) error.

(** The submit handler of render [r]; the ingestion request settles as [o]. *)
Definition handleIngest (r : AppState) (o : Outcome) : M unit :=
  emit Ev_preventDefault ;;
  if invalid r then
    showToast (JStr required_message) error
  else
    setLoading true ;;
    try_finally
      (try_catch (handleIngest_try r o)
                 (fun _ => showToast (JStr network_message) error))
      (setLoading false).

(** The paths of a valid submission on which the [try] block throws: the
    request rejects, the body is not JSON, or a conversion or a property
    read fails. *)
Definition throws (r : AppState) (o : Outcome) : Prop :=
  o = Rejected
  \/ (exists res, o = Responded res /\ body res = None)
  \/ (exists res data e, o = Responded res /\ body res = Some data /\ ok res = true
        /\ to_string (target_namespace r) = Throw e)
  \/ (exists res data e, o = Responded res /\ body res = Some data /\ ok res = false
        /\ get_prop data (u16 "detail") = Throw e).

(** *** formatTime (lines 83-92) *)

(** [now] is the time value [new Date()] reads from the clock.  For time
    values in the range of [Date], [Math.floor((now - d) / 1000)] falls on
    the same side of 60, 3600 and 86400 as the integer quotient, and equals
    it below 86400. *)
Definition formatTime `{Platform} (now : Z) (timestamp : JsVal) : Result jsstring :=
  if negb (truthy timestamp) then Ok []
  else
    match Date_new timestamp with
    | Throw e => Throw e
    | Ok None => Ok (Date_toLocaleDateString None)
    | Ok (Some d) =>
        let diff := (now - d) / 1000 in
        if diff <? 60 then Ok (u16 "just now")
        else if diff <? 3600 then Ok (Number_toString (diff / 60) ++ u16 "m ago")
        else if diff <? 86400 then Ok (Number_toString (diff / 3600) ++ u16 "h ago")
        else Ok (Date_toLocaleDateString (Some d))
    end.

(** *** Reading a trace *)

(** The notifications raised, in order. *)
Fixpoint notifications (tr : list Event) : list Toast :=
  match tr with
  | [] => []
  | Ev_setToast (Some t) :: rest => t :: notifications rest
  | _ :: rest => notifications rest
  end.

(** The requests sent, in order. *)
Fixpoint requests (tr : list Event) : list Request :=
  match tr with
  | [] => []
  | Ev_fetch q :: rest => q :: requests rest
  | _ :: rest => requests rest
  end.

(** The values given to [setLoading], in order. *)
Fixpoint loadings (tr : list Event) : list bool :=
  match tr with
  | [] => []
  | Ev_setLoading b :: rest => b :: loadings rest
  | _ :: rest => loadings rest
  end.

(** How many syncs were started. *)
Fixpoint syncs (tr : list Event) : nat :=
  match tr with
  | [] => O
  | Ev_fetchData :: rest => S (syncs rest)
  | _ :: rest => syncs rest
  end.

(** The state changes of a trace: the setter calls and the timers set. *)
Definition is_write (e : Event) : bool :=
  match e with
  | Ev_preventDefault | Ev_fetch _ | Ev_console_error _ | Ev_fetchData => false
  | _ => true
  end.

Definition writes (tr : list Event) : list Event := filter is_write tr.

(** What [showToast] leaves in the trace. *)
Definition raised (m : JsVal) (k : ToastType) : list Event :=
  [Ev_setToast (Some {| message := m; type := k |}); Ev_setTimeout 4000].

Definition result_of {A} (x : Result A * World * list Event) : Result A := fst (fst x).
Definition world_of {A} (x : Result A * World * list Event) : World := snd (fst x).
Definition trace_of {A} (x : Result A * World * list Event) : list Event := snd x.

End App.
Export App.

(** ** Sample data *)

Module Sample.

(** A platform to run examples on: a timestamp is a numeric time value, a
    date prints as its day number, and only a string of digits that is not
    all zeros has a positive numeric value. *)
Definition platform : Platform := {|
  StringToNumber_pos := fun s =>
    forallb (fun c => (48 <=? c) && (c <=? 57))%N s
    && existsb (fun c => (49 <=? c) && (c <=? 57))%N s;
  Date_new := fun v => match v with JNum n => Ok (Some n) | _ => Ok None end;
  Date_toLocaleDateString := fun d =>
    match d with
    | Some t => Number_toString (t / 86400000)
    | None => u16 "Invalid Date"
    end
|}.

Definition namespace (name : string) (count : Z) : JsVal :=
  JObj [(u16 "name", JStr (u16 name)); (u16 "count", JNum count)].

Definition document (ns content : string) : JsVal :=
  JObj [(u16 "namespace", JStr (u16 ns)); (u16 "doc_type", JStr (u16 "text"));
        (u16 "timestamp", JStr (u16 "2024-05-01T10:00:00Z"));
        (u16 "content", JStr (u16 content))].

(** A render in the middle of a session: one namespace known and selected,
    one document listed, a note typed in. *)
Definition render : AppState := {|
  namespaces := JArr [namespace "ProjectA" 1];
  recentDocs := JArr [document "ProjectA" "first note"];
  stats := JObj [(u16 "total_documents", JNum 1); (u16 "vectorized", JNum 1)];
  selectedNamespace := JStr (u16 "ProjectA");
  filterNamespace := JNull;
  text := u16 "note";
  newNamespace := [];
  loading := false;
  toast := None
|}.

Definition world : World := {| app := render; timers := []; clock := 0 |}.

(** The same render before anything was typed. *)
Definition blank : AppState := with_text [] render.

(** The same render with a selection made of three spaces. *)
Definition spaces : AppState := with_selectedNamespace (JStr (u16 "   ")) render.

(** The same render with nothing selected yet. *)
Definition unselected : AppState := with_selectedNamespace (JStr []) render.

Definition reply (status : Z) (body : option JsVal) : Outcome :=
  Responded {| status := status; body := body |}.

Definition namespaces_body : JsVal :=
  JObj [(u16 "namespaces", JArr [namespace "ProjectB" 4; namespace "ProjectA" 1])].
Definition stats_body : JsVal :=
  JObj [(u16 "total_documents", JNum 5); (u16 "vectorized", JNum 5)].
Definition recent_body : JsVal :=
  JObj [(u16 "documents", JArr [document "ProjectB" "second note"])].

(** Two notifications, the second pushed one second after the first. *)
Definition note_A : Toast := {| message := JStr (u16 "saved"); type := success |}.
Definition note_B : Toast := {| message := JStr (u16 "failed"); type := error |}.

Definition start : World := {| app := initial; timers := []; clock := 0 |}.
Definition after_A : World := world_of (showToast (message note_A) (type note_A) start).
Definition after_B : World :=
  world_of (showToast (message note_B) (type note_B) (advance 1000 after_A)).

End Sample.

(** ** The view and its handlers (lines 94-243) *)

Module Ui.

Definition with_filterNamespace v (s : AppState) : AppState :=
  {| namespaces := namespaces s; recentDocs := recentDocs s; stats := stats s;
     selectedNamespace := selectedNamespace s; filterNamespace := v;
     text := text s; newNamespace := newNamespace s; loading := loading s;
     toast := toast s |}.

(** [v === s] for a string [s]: nothing is converted, so only that string
    is equal to it. *)
Definition strict_eq_string (v : JsVal) (s : jsstring) : bool :=
  match v with
  | JStr s' => str_eqb s' s
  | _ => false
  end.

(** [v.length] *)
Definition get_length (v : JsVal) : Result JsVal :=
  if nullish v then Throw TypeError else Ok (opt_length v).

(** The values of the first three stat cards (lines 108, 112 and 116), in
    the order the expressions are evaluated. *)
Definition stats_bar (s : AppState) : Result (JsVal * JsVal * JsVal) :=
  match get_prop (stats s) (u16 "total_documents") with
  | Throw e => Throw e
  | Ok total =>
      match get_prop (stats s) (u16 "vectorized") with
      | Throw e => Throw e
      | Ok vectorized =>
          match get_length (namespaces s) with
          | Throw e => Throw e
          | Ok count => Ok (js_or total (JNum 0), js_or vectorized (JNum 0), count)
          end
      end
  end.

(** [l.map(ns => ns.name)] on the elements of an array. *)
Fixpoint names_of (l : list JsVal) : Result (list JsVal) :=
  match l with
  | [] => Ok []
  | ns :: rest =>
      match get_prop ns (u16 "name") with
      | Throw e => Throw e
      | Ok name =>
          match names_of rest with
          | Throw e => Throw e
          | Ok names => Ok (name :: names)
          end
      end
  end.

(** The names the options (line 142) and the pills (line 198) are built
    from: [namespaces.map(...)] reads [ns.name] of each element, and only an
    array has a [map] to call. *)
Definition namespace_names (s : AppState) : Result (list JsVal) :=
  match namespaces s with
  | JArr l => names_of l
  | _ => Throw TypeError
  end.

(** An input handler [f] runs: the next render has the state [f] gives. *)
Definition input (f : AppState -> AppState) (w : World) : World :=
  {| app := f (app w); timers := timers w; clock := clock w |}.

(** The [onChange] handlers (lines 139, 155 and 165); [value] is
    [e.target.value], a string. *)
Definition select_onChange (value : jsstring) (s : AppState) : AppState :=
  with_selectedNamespace (JStr value) s.
Definition newNamespace_onChange (value : jsstring) (s : AppState) : AppState :=
  with_newNamespace value s.
Definition text_onChange (value : jsstring) (s : AppState) : AppState :=
  with_text value s.

(** Whether a submission of render [r] whose request settles as [o] gets to
    lines 69-72: the inputs are valid, the response is 2xx, its body is
    JSON, and the namespace can be spliced into the message. *)
Definition succeeds (r : AppState) (o : Outcome) : bool :=
  negb (invalid r)
  && match o with
     | Rejected => false
     | Responded res =>
         ok res
         && match body res with Some _ => true | None => false end
         && match to_string (target_namespace r) with Ok _ => true | Throw _ => false end
     end.

(** The world a valid submission made in [w] ends in, by the notification it
    raised and whether the drafts were cleared. *)
Definition submitted (w : World) (t : Toast) (cleared : bool) : World :=
  {| app := with_loading false
              ((if cleared
                then fun s => with_newNamespace [] (with_text [] s)
                else fun s => s)
                 (with_toast (Some t) (with_loading true (app w))));
     timers := timers w ++ [clock w + 4000]; clock := clock w |}.

(** The [disabled] attribute of the submit button (line 177). *)
Definition submit_disabled (r : AppState) : bool :=
  loading r
  || (negb (truthy (selectedNamespace r)) && negb (truthy (JStr (trim (newNamespace r)))))
  || negb (truthy (JStr (trim (text r)))).

(** The "All" pill (lines 194-197). *)
Definition all_pill_active (r : AppState) : bool := negb (truthy (filterNamespace r)).
Definition all_pill_onClick (r : AppState) : AppState := with_filterNamespace JNull r.

(** The pill of a namespace whose name is the string [name] (lines 199-206),
    in the render [r] on screen. *)
Definition pill_active (r : AppState) (name : jsstring) : bool :=
  strict_eq_string (filterNamespace r) name.
Definition pill_onClick (name : jsstring) (r : AppState) : AppState :=
  with_filterNamespace
    (if strict_eq_string (filterNamespace r) name then JNull else JStr name) r.

(** How many pills are highlighted, "All" included, when the pills shown
    are those of [names]. *)
Definition active_pills (r : AppState) (names : list jsstring) : nat :=
  ((if all_pill_active r then 1 else 0)
   + List.length (filter (pill_active r) names))%nat.

End Ui.
Export Ui.

(** ** What the backend promises (the shapes [fetchData] reads) *)

Module Contract.

Definition is_string (v : JsVal) : bool :=
  match v with JStr _ => true | _ => false end.
Definition is_array (v : JsVal) : bool :=
  match v with JArr _ => true | _ => false end.
Definition is_object (v : JsVal) : bool :=
  match v with JObj _ => true | _ => false end.

(** [{ name: string, count: number }] *)
Definition is_namespace (v : JsVal) : bool :=
  match v with
  | JObj props =>
      match own props (u16 "name"), own props (u16 "count") with
      | Some (JStr _), Some (JNum _) => true
      | _, _ => false
      end
  | _ => false
  end.

Definition is_namespace_list (v : JsVal) : bool :=
  match v with
  | JArr l => forallb is_namespace l
  | _ => false
  end.

(** A body of [GET /namespaces], [GET /stats], [GET /recent]. *)
Definition namespaces_reply (v : JsVal) : bool :=
  match v with
  | JObj props =>
      match own props (u16 "namespaces") with
      | Some l => is_namespace_list l
      | None => false
      end
  | _ => false
  end.
Definition stats_reply (v : JsVal) : bool := is_object v.
Definition recent_reply (v : JsVal) : bool :=
  match v with
  | JObj props =>
      match own props (u16 "documents") with
      | Some l => is_array l
      | None => false
      end
  | _ => false
  end.

(** A request that either fails or answers with a body of the given shape. *)
Definition keeps (shape : JsVal -> bool) (o : Outcome) : bool :=
  match o with
  | Rejected => true
  | Responded res => match body res with None => true | Some v => shape v end
  end.

(** The state a conforming backend and the inputs of the page can produce:
    the synced fields have their shapes and the selection is a string. *)
Definition typed (s : AppState) : bool :=
  is_namespace_list (namespaces s) && is_object (stats s) && is_array (recentDocs s)
  && is_string (selectedNamespace s).

End Contract.
Export Contract.

(** ** The periodic sync (lines 45-49) *)

Module Effect.

(** A live [setInterval(fetchData, 10000)]: its handle, the render whose
    [fetchData] it calls, and when it fires next. *)
Record Interval : Type := { id : nat; callback : AppState; due : Z }.

Record Page : Type := { world : World; intervals : list Interval; next_id : nat }.

Definition setInterval_fetchData (r : AppState) (p : Page) : nat * Page :=
  (next_id p,
   {| world := world p;
      intervals := intervals p
                   ++ [{| id := next_id p; callback := r;
                          due := clock (world p) + 10000 |}];
      next_id := S (next_id p) |}).

Definition clearInterval (i : nat) (p : Page) : Page :=
  {| world := world p;
     intervals := filter (fun x => negb (Nat.eqb (id x) i)) (intervals p);
     next_id := next_id p |}.

(** The effect of render [r] (lines 46-47): a sync is started, then the
    interval is set.  The result is the handle its cleanup (line 48) holds. *)
Definition effect (r : AppState) (p : Page) : nat * Page * list Event :=
  let '(_, w1, tr) := fetchData_call r (world p) in
  let '(i, p1) :=
    setInterval_fetchData r
      {| world := w1; intervals := intervals p; next_id := next_id p |} in
  (i, p1, tr).

Definition cleanup (i : nat) (p : Page) : Page := clearInterval i p.

(** The component as React drives it: the page, and the handle held by the
    cleanup of the last effect, if the component is mounted. *)
Record Mounted : Type := { page : Page; handle : option nat }.

(** What can happen to the periodic sync: React runs the effect of a render
    (on mount, and again whenever [fetchData] is a new function, after the
    cleanup of the previous run), React unmounts the component (the cleanup
    runs), or the interval that is due first fires. *)
Inductive Step : Type :=
| Run (r : AppState)
| Unmount
| Tick.

Definition cleaned (m : Mounted) : Page :=
  match handle m with
  | Some i => cleanup i (page m)
  | None => page m
  end.

(** The live interval that fires first (the earlier in the list on a tie). *)
Fixpoint earliest (l : list Interval) : option Interval :=
  match l with
  | [] => None
  | x :: rest =>
      match earliest rest with
      | Some y => if due y <? due x then Some y else Some x
      | None => Some x
      end
  end.

Definition reschedule (i : Interval) (x : Interval) : Interval :=
  if Nat.eqb (id x) (id i)
  then {| id := id x; callback := callback x; due := due x + 10000 |}
  else x.

(** An interval fires: time has reached its due time (the dismiss timers
    due by then have run), its [fetchData] is called, and it is due again
    10000 ms later. *)
Definition fire (i : Interval) (p : Page) : Page * list Event :=
  let '(_, w1, tr) := fetchData_call (callback i) (advance (due i) (world p)) in
  ({| world := w1; intervals := map (reschedule i) (intervals p);
      next_id := next_id p |}, tr).

Definition step (s : Step) (m : Mounted) : Mounted * list Event :=
  match s with
  | Run r =>
      let '(i, p, tr) := effect r (cleaned m) in
      ({| page := p; handle := Some i |}, tr)
  | Unmount => ({| page := cleaned m; handle := None |}, [])
  | Tick =>
      match earliest (intervals (page m)) with
      | Some i =>
          let '(p, tr) := fire i (page m) in
          ({| page := p; handle := handle m |}, tr)
      | None => (m, [])
      end
  end.

Fixpoint steps (l : list Step) (m : Mounted) : Mounted * list Event :=
  match l with
  | [] => (m, [])
  | s :: rest =>
      let '(m1, t1) := step s m in
      let '(m2, t2) := steps rest m1 in
      (m2, t1 ++ t2)
  end.

(** Before the component is mounted. *)
Definition fresh (w : World) : Mounted :=
  {| page := {| world := w; intervals := []; next_id := O |}; handle := None |}.

(** The render whose [fetchData] the last effect closed over, if the
    component is still mounted after [l]. *)
Fixpoint last_run (l : list Step) (current : option AppState) : option AppState :=
  match l with
  | [] => current
  | Run r :: rest => last_run rest (Some r)
  | Unmount :: rest => last_run rest None
  | Tick :: rest => last_run rest current
  end.

(** What the steps keep: while the component is mounted there is one live
    interval, the one the cleanup holds, calling the [fetchData] of the last
    render whose effect ran; otherwise there is none. *)
Definition consistent (m : Mounted) (current : option AppState) : Prop :=
  match current with
  | Some r =>
      exists i d,
        intervals (page m)
        = [{| id := i; callback := r; due := d |}]
        /\ handle m = Some i
  | None => intervals (page m) = [] /\ handle m = None
  end.


(** [Object.is(a, b)], where the values decide it: two arrays or objects
    are the same only when they are one object, which their contents do not
    tell. *)
Definition same_value (a b : JsVal) : option bool :=
  match a, b with
  | JUndefined, JUndefined => Some true
  | JNull, JNull => Some true
  | JBool x, JBool y => Some (Bool.eqb x y)
  | JNum x, JNum y => Some (x =? y)
  | JStr x, JStr y => Some (str_eqb x y)
  | JArr _, JArr _ | JArr _, JObj _ | JObj _, JArr _ | JObj _, JObj _ => None
  | _, _ => Some false
  end.

(** Whether [useCallback] (line 43) gives render [r'] a new [fetchData],
    [r] being the render before it: one of the two dependencies changed. *)
Definition renewed (r r' : AppState) : option bool :=
  match same_value (filterNamespace r) (filterNamespace r'),
        same_value (selectedNamespace r) (selectedNamespace r') with
  | Some false, _ | _, Some false => Some true
  | Some true, Some true => Some false
  | _, _ => None
  end.

(** The commit of render [r'] after render [r] (line 49): the effect runs
    again exactly when [fetchData] is a new function. *)
Definition commit (r r' : AppState) (m : Mounted) : option (Mounted * list Event) :=
  match renewed r r' with
  | Some true => Some (step (Run r') m)
  | Some false => Some (m, [])
  | None => None
  end.

Definition primitive (v : JsVal) : bool :=
  match v with
  | JArr _ | JObj _ => false
  | _ => true
  end.

End Effect.

(** ** The URLs (lines 4, 25-27 and 61) *)

Module Url.

(** Line 4: [VITE_API_URL] when it is set and not empty, else the local
    address. *)
Definition API_URL (configured : option jsstring) : jsstring :=
  match configured with
  | Some (c :: rest) => c :: rest
  | _ => u16 "http://localhost:8000"
  end.

(** The URL [fetch] is called with.  The template literal of line 27 puts
    the filter after [&namespace=] without encoding it. *)
Definition url (api : jsstring) (q : Request) : jsstring :=
  match q with
  | GET_namespaces => api ++ u16 "/namespaces"
  | GET_stats => api ++ u16 "/stats"
  | GET_recent limit namespace =>
      api ++ u16 "/recent?limit=" ++ Number_toString limit
      ++ match namespace with
         | Some s => u16 "&namespace=" ++ s
         | None => []
         end
  | POST_ingest _ => api ++ u16 "/ingest"
  end.

End Url.

(** ** The page over time *)

(** A notification on screen has a dismiss timer pending. *)
Definition dismissal_pending (w : World) : Prop :=
  toast (app w) <> None -> timers w <> [].

(** Every pending dismiss timer is due within the next 4000 ms. *)
Definition timers_in_window (w : World) : Prop :=
  Forall (fun due => clock w < due <= clock w + 4000) (timers w).

Section Reachable.

Context `{Platform}.

(** One step of the page: a submission, a sync, an input that leaves the
    notification alone, or time passing.  Only [showToast] and the dismiss
    timers write the notification. *)
Inductive page_step : World -> World -> Prop :=
| step_submit (r : AppState) (o : Outcome) (w : World) :
    page_step w (world_of (handleIngest r o w))
| step_sync (r : AppState) (o1 o2 o3 : Outcome) (w : World) :
    page_step w (world_of (fetchData r o1 o2 o3 w))
| step_input (f : AppState -> AppState) (w : World) :
    toast (f (app w)) = toast (app w) ->
    page_step w {| app := f (app w); timers := timers w; clock := clock w |}
| step_time (t : Z) (w : World) :
    clock w <= t -> page_step w (advance t w).

Inductive reachable (w0 : World) : World -> Prop :=
| reach_start : reachable w0 w0
| reach_step (w w' : World) : reachable w0 w -> page_step w w' -> reachable w0 w'.

End Reachable.

(** * Properties *)

(** ** Traces *)

Section Traces.

Lemma notifications_app (a b : list Event) :
  notifications (a ++ b) = notifications a ++ notifications b.
Proof.
  induction a as [|e a IH]; simpl; [reflexivity|].
  destruct e as [| | | | | | | | | | |[t|]|]; simpl; rewrite IH; reflexivity.
Qed.

Lemma requests_app (a b : list Event) :
  requests (a ++ b) = requests a ++ requests b.
Proof.
  induction a as [|e a IH]; simpl; [reflexivity|].
  destruct e; simpl; rewrite IH; reflexivity.
Qed.

Lemma loadings_app (a b : list Event) :
  loadings (a ++ b) = loadings a ++ loadings b.
Proof.
  induction a as [|e a IH]; simpl; [reflexivity|].
  destruct e; simpl; rewrite IH; reflexivity.
Qed.

Lemma syncs_app (a b : list Event) :
  syncs (a ++ b) = (syncs a + syncs b)%nat.
Proof.
  induction a as [|e a IH]; simpl; [reflexivity|].
  destruct e; simpl; rewrite IH; reflexivity.
Qed.

End Traces.

(** ** String facts *)

Lemma trim_start_white (s : jsstring) :
  forallb is_white s = true -> trim_start s = [].
Proof.
  induction s as [|c s IH]; simpl; [reflexivity|].
  intros H. apply andb_prop in H as [Hc Hs]. rewrite Hc. auto.
Qed.

Lemma trim_white (s : jsstring) :
  forallb is_white s = true -> trim s = [].
Proof.
  intros H. unfold trim. rewrite (trim_start_white s H). reflexivity.
Qed.

Lemma truthy_str (s : jsstring) : truthy (JStr s) = false <-> s = [].
Proof.
  destruct s; simpl; split; congruence.
Qed.

(** Line 53: the new-namespace field, trimmed, when something is left of it,
    else the selection as it is. *)
Lemma target_namespace_eq (r : AppState) :
  target_namespace r =
  match trim (newNamespace r) with
  | [] => selectedNamespace r
  | _ :: _ => JStr (trim (newNamespace r))
  end.
Proof.
  unfold target_namespace, js_or. destruct (trim (newNamespace r)); reflexivity.
Qed.

Lemma invalid_iff (r : AppState) :
  invalid r = true <-> truthy (target_namespace r) = false \/ trim (text r) = [].
Proof.
  unfold invalid. rewrite orb_true_iff, !negb_true_iff, truthy_str. reflexivity.
Qed.

(** Nothing selected and no new namespace: invalid, whatever the text. *)
Example nothing_selected_is_invalid :
  invalid (with_text (u16 "hello") Sample.unselected) = true.
Proof. reflexivity. Qed.

(** The new-namespace field takes precedence over the selection. *)
Example new_namespace_takes_precedence :
  target_namespace (with_newNamespace (u16 " ProjectB ") Sample.render)
  = JStr (u16 "ProjectB").
Proof. reflexivity. Qed.

(** ** handleIngest, path by path *)

Section Submission.

Variables (r : AppState) (w : World).

Lemma showToast_eq m k w0 :
  showToast m k w0 =
  (Ok tt,
   {| app := with_toast (Some {| message := m; type := k |}) (app w0);
      timers := timers w0 ++ [clock w0 + 4000]; clock := clock w0 |},
   raised m k).
Proof. reflexivity. Qed.

(** A call that is not awaited starts one sync and touches no state. *)
Lemma fetchData_call_eq w0 :
  exists tr,
    fetchData_call r w0 = (Ok tt, w0, tr)
    /\ syncs tr = 1%nat /\ notifications tr = [] /\ loadings tr = [].
Proof.
  unfold fetchData_call, fetchData_requests, try_catch, bind, emit, fetch, lift, ret,
    console_error.
  destruct (truthy (filterNamespace r)); [destruct (to_string (filterNamespace r))|];
    simpl; eexists; (split; [reflexivity|]); simpl; auto.
Qed.

Lemma handleIngest_invalid_eq o :
  invalid r = true ->
  handleIngest r o w =
  (Ok tt,
   {| app := with_toast (Some {| message := JStr required_message; type := error |}) (app w);
      timers := timers w ++ [clock w + 4000]; clock := clock w |},
   Ev_preventDefault :: raised (JStr required_message) error).
Proof.
  intros H. unfold handleIngest, bind, emit. rewrite H. reflexivity.
Qed.

Lemma handleIngest_caught_eq o :
  invalid r = false -> throws r o ->
  handleIngest r o w =
  (Ok tt,
   {| app := with_loading false
               (with_toast (Some {| message := JStr network_message; type := error |})
                  (with_loading true (app w)));
      timers := timers w ++ [clock w + 4000]; clock := clock w |},
   [Ev_preventDefault; Ev_setLoading true; Ev_fetch (POST_ingest (ingest_body r))]
   ++ raised (JStr network_message) error ++ [Ev_setLoading false]).
Proof.
  intros Hv Hc. unfold handleIngest, bind at 1, emit. rewrite Hv.
  destruct Hc as [->|[(res & -> & Hb)|[(res & data & e & -> & Hb & Hok & Hs)
                                      |(res & data & e & -> & Hb & Hok & Hs)]]];
    unfold handleIngest_try, try_finally, try_catch, bind, settle, json, fetch, emit,
      lift, ret, setLoading, update; simpl; rewrite ?Hb; simpl; rewrite ?Hok; simpl;
    rewrite ?Hs; reflexivity.
Qed.

Lemma handleIngest_http_error_eq res data detail :
  invalid r = false -> ok res = false -> body res = Some data ->
  get_prop data (u16 "detail") = Ok detail ->
  handleIngest r (Responded res) w =
  (Ok tt,
   {| app := with_loading false
               (with_toast (Some {| message := js_or detail (JStr failed_message);
                                    type := error |})
                  (with_loading true (app w)));
      timers := timers w ++ [clock w + 4000]; clock := clock w |},
   [Ev_preventDefault; Ev_setLoading true; Ev_fetch (POST_ingest (ingest_body r))]
   ++ raised (js_or detail (JStr failed_message)) error ++ [Ev_setLoading false]).
Proof.
  intros Hv Hok Hb Hd. unfold handleIngest, bind at 1, emit. rewrite Hv.
  unfold handleIngest_try, try_finally, try_catch, bind, settle, json, fetch, emit,
    lift, ret, setLoading, update; simpl. rewrite Hb; simpl. rewrite Hok, Hd. reflexivity.
Qed.

Lemma handleIngest_success_eq res data ns :
  invalid r = false -> ok res = true -> body res = Some data ->
  to_string (target_namespace r) = Ok ns ->
  exists tr,
    handleIngest r (Responded res) w =
    (Ok tt,
     {| app := with_loading false
                 (with_newNamespace []
                    (with_text []
                       (with_toast (Some {| message := JStr (ingested_message ns);
                                            type := success |})
                          (with_loading true (app w)))));
        timers := timers w ++ [clock w + 4000]; clock := clock w |},
     [Ev_preventDefault; Ev_setLoading true; Ev_fetch (POST_ingest (ingest_body r))]
     ++ (raised (JStr (ingested_message ns)) success
         ++ [Ev_setText []; Ev_setNewNamespace []] ++ tr)
     ++ [Ev_setLoading false])
    /\ syncs tr = 1%nat /\ notifications tr = [] /\ loadings tr = [].
Proof.
  intros Hv Hok Hb Hs.
  destruct (fetchData_call_eq
    {| app := with_newNamespace []
                    (with_text []
                       (with_toast (Some {| message := JStr (ingested_message ns);
                                            type := success |})
                          (with_loading true (app w))));
        timers := timers w ++ [clock w + 4000]; clock := clock w |}) as (tr & Htr & P).
  exists tr. split; [|exact P].
  unfold handleIngest, bind at 1, emit. rewrite Hv.
  unfold handleIngest_try, try_finally, try_catch, bind, settle, json, fetch, emit,
    lift, ret, setLoading, update; simpl. rewrite Hb; simpl. rewrite Hok, Hs. simpl.
  unfold setText, setNewNamespace, update; simpl.
  rewrite Htr. reflexivity.
Qed.

(** Every valid submission, whatever becomes of the request: the flag is
    raised, then the request is sent, and the flag is lowered last. *)
Lemma handleIngest_valid_shape o :
  invalid r = false ->
  exists mid,
    result_of (handleIngest r o w) = Ok tt
    /\ trace_of (handleIngest r o w) =
       [Ev_preventDefault; Ev_setLoading true; Ev_fetch (POST_ingest (ingest_body r))]
       ++ mid ++ [Ev_setLoading false]
    /\ loadings mid = []
    /\ List.length (notifications mid) = 1%nat
    /\ loading (app (world_of (handleIngest r o w))) = false.
Proof.
  intros Hv.
  assert (Hthrow : throws r o ->
    exists mid,
    result_of (handleIngest r o w) = Ok tt
    /\ trace_of (handleIngest r o w) =
       [Ev_preventDefault; Ev_setLoading true; Ev_fetch (POST_ingest (ingest_body r))]
       ++ mid ++ [Ev_setLoading false]
    /\ loadings mid = []
    /\ List.length (notifications mid) = 1%nat
    /\ loading (app (world_of (handleIngest r o w))) = false).
  { intros Ht. rewrite (handleIngest_caught_eq o Hv Ht).
    exists (raised (JStr network_message) error). repeat split. }
  destruct o as [|res].
  - apply Hthrow. left. reflexivity.
  - destruct (body res) as [data|] eqn:Hb.
    2:{ apply Hthrow. right. left. eauto. }
    destruct (ok res) eqn:Hok.
    + destruct (to_string (target_namespace r)) as [ns|e] eqn:Hs.
      2:{ apply Hthrow. right. right. left. exists res, data, e. auto. }
      destruct (handleIngest_success_eq res data ns Hv Hok Hb Hs) as (tr & -> & Hs1 & Hn & Hl).
      eexists. split; [reflexivity|]. split; [reflexivity|].
      unfold raised. simpl. rewrite Hl, Hn. repeat split.
    + destruct (get_prop data (u16 "detail")) as [detail|e] eqn:Hd.
      2:{ apply Hthrow. right. right. right. exists res, data, e. auto. }
      rewrite (handleIngest_http_error_eq res data detail Hv Hok Hb Hd).
      exists (raised (js_or detail (JStr failed_message)) error). repeat split.
Qed.

End Submission.

(** ** Claims about submission *)

(** C5: when the resolved target namespace (the trimmed new-namespace field
    if something is left of it, else the selection) is empty, or the trimmed
    text is empty, the handler sends no request, raises the local error
    notification as its first and only state change, and never calls
    [setLoading]. *)
Theorem C5_invalid_submission_is_local (r : AppState) (o : Outcome) (w : World) :
  truthy (target_namespace r) = false \/ trim (text r) = [] ->
  requests (trace_of (handleIngest r o w)) = []
  /\ trace_of (handleIngest r o w)
     = Ev_preventDefault :: raised (JStr required_message) error
  /\ notifications (trace_of (handleIngest r o w))
     = [{| message := JStr required_message; type := error |}]
  /\ loadings (trace_of (handleIngest r o w)) = []
  /\ loading (app (world_of (handleIngest r o w))) = loading (app w).
Proof.
  intros H. apply invalid_iff in H.
  rewrite (handleIngest_invalid_eq r w o H). repeat split.
Qed.

Lemma C5_witness :
  (truthy (target_namespace Sample.blank) = false \/ trim (text Sample.blank) = [])
  /\ requests (trace_of (handleIngest Sample.blank Rejected Sample.world)) = []
  /\ loadings (trace_of (handleIngest Sample.blank Rejected Sample.world)) = [].
Proof.
  split; [right; reflexivity|].
  pose proof (C5_invalid_submission_is_local Sample.blank Rejected Sample.world
                (or_intror eq_refl)) as (Hq & _ & _ & Hl & _).
  split; [exact Hq | exact Hl].
Defined.

(** C7: a submission that passes validation sets the submitting flag to
    true before it sends the ingestion request and sets it back to false as
    its last step, on every path: a 2xx response, another response, a
    rejected request, and any exception in between.  The handler returns
    normally and the flag is false when it does. *)
Theorem C7_submitting_flag_is_released (r : AppState) (o : Outcome) (w : World) :
  invalid r = false ->
  exists mid,
    result_of (handleIngest r o w) = Ok tt
    /\ trace_of (handleIngest r o w)
       = [Ev_preventDefault; Ev_setLoading true; Ev_fetch (POST_ingest (ingest_body r))]
         ++ mid ++ [Ev_setLoading false]
    /\ loadings mid = []
    /\ loading (app (world_of (handleIngest r o w))) = false.
Proof.
  intros Hv. destruct (handleIngest_valid_shape r w o Hv) as (mid & H1 & H2 & H3 & _ & H5).
  exists mid. auto.
Qed.

Lemma C7_witness :
  invalid Sample.render = false
  /\ loading (app (world_of (handleIngest Sample.render Rejected Sample.world))) = false.
Proof.
  split; [reflexivity|].
  destruct (C7_submitting_flag_is_released Sample.render Rejected Sample.world eq_refl)
    as (mid & _ & _ & _ & H).
  exact H.
Defined.

(** C3, as the code has it: a submission whose request yields a non-2xx
    response raises exactly one notification, of kind error.  When the body
    parses as JSON and is not [null], the message is the body's [detail] if
    that value is truthy, and "Ingestion failed" otherwise. *)
Theorem C3_http_error_notification (r : AppState) (res : Response) (w : World) :
  invalid r = false -> ok res = false ->
  (exists m, notifications (trace_of (handleIngest r (Responded res) w))
             = [{| message := m; type := error |}])
  /\ forall data detail,
       body res = Some data -> get_prop data (u16 "detail") = Ok detail ->
       notifications (trace_of (handleIngest r (Responded res) w))
       = [{| message := if truthy detail then detail else JStr failed_message;
             type := error |}].
Proof.
  intros Hv Hok.
  assert (Hparsed : forall data detail,
       body res = Some data -> get_prop data (u16 "detail") = Ok detail ->
       notifications (trace_of (handleIngest r (Responded res) w))
       = [{| message := if truthy detail then detail else JStr failed_message;
             type := error |}]).
  { intros data detail Hb Hd.
    rewrite (handleIngest_http_error_eq r w res data detail Hv Hok Hb Hd). reflexivity. }
  split; [|exact Hparsed].
  destruct (body res) as [data|] eqn:Hb.
  - destruct (get_prop data (u16 "detail")) as [detail|e] eqn:Hd.
    + eexists. apply (Hparsed data detail eq_refl Hd).
    + exists (JStr network_message).
      rewrite (handleIngest_caught_eq r w (Responded res) Hv); [reflexivity|].
      right. right. right. exists res, data, e. auto.
  - exists (JStr network_message).
    rewrite (handleIngest_caught_eq r w (Responded res) Hv); [reflexivity|].
    right. left. eauto.
Qed.

Lemma C3_witness :
  invalid Sample.render = false
  /\ notifications
       (trace_of (handleIngest Sample.render
                    (Sample.reply 400 (Some (JObj [(u16 "detail", JStr (u16 "too long"))])))
                    Sample.world))
     = [{| message := JStr (u16 "too long"); type := error |}].
Proof.
  split; [reflexivity|].
  exact (proj2 (C3_http_error_notification Sample.render
                  {| status := 400;
                     body := Some (JObj [(u16 "detail", JStr (u16 "too long"))]) |}
                  Sample.world eq_refl eq_refl)
               _ _ eq_refl eq_refl).
Defined.

(** C3 as stated fails: a 502 whose body is not JSON is a non-2xx response
    with no [detail], and the notification does not say "Ingestion failed"
    but reports a network error; and a 400 whose [detail] is present and is
    the empty string gives "Ingestion failed", not that [detail]. *)
Lemma C3_counterexample :
  invalid Sample.render = false
  /\ ok {| status := 502; body := None |} = false
  /\ notifications (trace_of (handleIngest Sample.render (Sample.reply 502 None) Sample.world))
     = [{| message := JStr network_message; type := error |}]
  /\ network_message <> failed_message
  /\ notifications
       (trace_of (handleIngest Sample.render
                    (Sample.reply 400 (Some (JObj [(u16 "detail", JStr [])])))
                    Sample.world))
     = [{| message := JStr failed_message; type := error |}]
  /\ failed_message <> [].
Proof.
  repeat split; discriminate.
Qed.

(** C6, as the code has it: a submission whose target namespace is the
    string [ns] and whose request yields a 2xx response with a JSON body
    clears the text and the new-namespace field, raises exactly one
    notification, the success message naming [ns], and starts exactly one
    sync. *)
Theorem C6_success_clears_and_syncs (r : AppState) (res : Response) (w : World)
    (data : JsVal) (ns : jsstring) :
  invalid r = false -> ok res = true -> body res = Some data ->
  target_namespace r = JStr ns ->
  text (app (world_of (handleIngest r (Responded res) w))) = []
  /\ newNamespace (app (world_of (handleIngest r (Responded res) w))) = []
  /\ notifications (trace_of (handleIngest r (Responded res) w))
     = [{| message := JStr (ingested_message ns); type := success |}]
  /\ syncs (trace_of (handleIngest r (Responded res) w)) = 1%nat.
Proof.
  intros Hv Hok Hb Hns.
  assert (Hs : to_string (target_namespace r) = Ok ns) by (rewrite Hns; reflexivity).
  destruct (handleIngest_success_eq r w res data ns Hv Hok Hb Hs) as (tr & -> & Hs1 & Hn & Hl).
  unfold trace_of, world_of. simpl.
  rewrite notifications_app, syncs_app, Hn, Hs1. repeat split.
Qed.

Lemma C6_witness :
  invalid Sample.render = false
  /\ text (app (world_of (handleIngest Sample.render (Sample.reply 200 (Some (JObj [])))
                            Sample.world))) = []
  /\ syncs (trace_of (handleIngest Sample.render (Sample.reply 200 (Some (JObj [])))
                        Sample.world)) = 1%nat.
Proof.
  split; [reflexivity|].
  pose proof (C6_success_clears_and_syncs Sample.render
                {| status := 200; body := Some (JObj []) |} Sample.world
                (JObj []) (u16 "ProjectA") eq_refl eq_refl eq_refl eq_refl)
    as (Ht & _ & _ & Hs).
  split; [exact Ht | exact Hs].
Defined.

(** C6 as stated fails: after a 204 with no body the text is kept, the one
    notification is the network error, and no sync is started. *)
Lemma C6_counterexample :
  invalid Sample.render = false
  /\ ok {| status := 204; body := None |} = true
  /\ text (app (world_of (handleIngest Sample.render (Sample.reply 204 None) Sample.world)))
     = u16 "note"
  /\ notifications (trace_of (handleIngest Sample.render (Sample.reply 204 None) Sample.world))
     = [{| message := JStr network_message; type := error |}]
  /\ syncs (trace_of (handleIngest Sample.render (Sample.reply 204 None) Sample.world)) = 0%nat.
Proof.
  repeat split.
Qed.

(** C10: when the selection is made of whitespace only, nothing is left of
    the new-namespace field after trimming and the trimmed text is not
    empty, the submission is valid and the first request it sends is the
    ingestion request whose namespace is the selection as it is, although
    trimming it would leave nothing. *)
Theorem C10_whitespace_selection_is_submitted (r : AppState) (o : Outcome) (w : World)
    (s : jsstring) :
  selectedNamespace r = JStr s -> s <> [] -> forallb is_white s = true ->
  trim (newNamespace r) = [] -> trim (text r) <> [] ->
  invalid r = false
  /\ trim s = []
  /\ exists rest,
       requests (trace_of (handleIngest r o w))
       = POST_ingest (JObj [(u16 "namespace", JStr s); (u16 "text", JStr (trim (text r)))])
         :: rest.
Proof.
  intros Hsel Hne Hw Hnew Htext.
  assert (Htarget : target_namespace r = JStr s).
  { rewrite target_namespace_eq, Hnew. exact Hsel. }
  assert (Hv : invalid r = false).
  { destruct (invalid r) eqn:Hi; [|reflexivity].
    apply invalid_iff in Hi. rewrite Htarget, truthy_str in Hi.
    destruct Hi; contradiction. }
  split; [exact Hv|]. split; [exact (trim_white s Hw)|].
  destruct (handleIngest_valid_shape r w o Hv) as (mid & _ & -> & _).
  unfold ingest_body. rewrite Htarget. simpl. eexists. reflexivity.
Qed.

Lemma C10_witness :
  (selectedNamespace Sample.spaces = JStr (u16 "   ")
   /\ forallb is_white (u16 "   ") = true)
  /\ exists rest,
       requests (trace_of (handleIngest Sample.spaces Rejected Sample.world))
       = POST_ingest (JObj [(u16 "namespace", JStr (u16 "   "));
                            (u16 "text", JStr (trim (text Sample.spaces)))])
         :: rest.
Proof.
  split; [split; reflexivity|].
  exact (proj2 (proj2
    (C10_whitespace_selection_is_submitted Sample.spaces Rejected Sample.world
       (u16 "   ") eq_refl ltac:(discriminate) eq_refl eq_refl ltac:(discriminate)))).
Defined.

(** ** fetchData, path by path *)

Section Sync.

Context `{Platform}.
Variable r : AppState.

(** Issuing the requests changes no state and raises nothing. *)
Lemma fetchData_requests_frame (w : World) :
  world_of (fetchData_requests r w) = w
  /\ notifications (trace_of (fetchData_requests r w)) = []
  /\ (sends_requests r = true -> result_of (fetchData_requests r w) = Ok tt).
Proof.
  unfold fetchData_requests, sends_requests, bind, fetch, emit, lift, ret.
  destruct (truthy (filterNamespace r)); [destruct (to_string (filterNamespace r))|];
    simpl; repeat split; auto; discriminate.
Qed.

(** The default selection writes at most [selectedNamespace]. *)
Lemma deriveSelection_frame (nsData : JsVal) (w : World) :
  namespaces (app (world_of (deriveSelection r nsData w))) = namespaces (app w)
  /\ stats (app (world_of (deriveSelection r nsData w))) = stats (app w)
  /\ recentDocs (app (world_of (deriveSelection r nsData w))) = recentDocs (app w)
  /\ notifications (trace_of (deriveSelection r nsData w)) = [].
Proof.
  unfold deriveSelection, bind, lift, ret, setSelectedNamespace, update.
  destruct (truthy (selectedNamespace r)); simpl; [auto|].
  destruct (get_prop nsData (u16 "namespaces")) as [nss|]; simpl; [|auto].
  destruct (gt_zero (opt_length nss)) as [[|]|]; simpl; auto.
  destruct (get_first nss) as [first|]; simpl; [|auto].
  destruct (get_prop first (u16 "name")); simpl; auto.
Qed.

(** Line 38 runs when the captured selection is the empty string and the
    fetched list has a first element. *)
Lemma deriveSelection_first_eq (nsData first name : JsVal) (rest : list JsVal)
    (w : World) :
  selectedNamespace r = JStr [] ->
  get_prop nsData (u16 "namespaces") = Ok (JArr (first :: rest)) ->
  get_prop first (u16 "name") = Ok name ->
  deriveSelection r nsData w
  = (Ok tt,
     {| app := with_selectedNamespace name (app w);
        timers := timers w; clock := clock w |},
     [Ev_setSelectedNamespace name]).
Proof.
  intros Hsel Hn Hname.
  unfold deriveSelection, bind, lift, ret, setSelectedNamespace, update.
  rewrite Hsel; simpl. rewrite Hn; simpl.
  replace (0 <? Z.pos (Pos.of_succ_nat (Datatypes.length rest))) with true
    by (symmetry; apply Z.ltb_lt; lia).
  simpl. rewrite Hname. reflexivity.
Qed.

(** Nothing runs when the captured selection is truthy. *)
Lemma deriveSelection_kept_eq (nsData : JsVal) (w : World) :
  truthy (selectedNamespace r) = true ->
  deriveSelection r nsData w = (Ok tt, w, []).
Proof.
  intros Hsel. unfold deriveSelection. rewrite Hsel. reflexivity.
Qed.

(** A whole sync of a render with a selection never writes the selection,
    however its requests settle. *)
Lemma fetchData_keeps_selection (o1 o2 o3 : Outcome) (w : World) :
  truthy (selectedNamespace r) = true ->
  selectedNamespace (app (world_of (fetchData r o1 o2 o3 w)))
  = selectedNamespace (app w).
Proof.
  intros Hsel.
  unfold fetchData, fetchData_try, fetchData_requests, Promise_all, try_catch, bind,
    settle, json, fetch, emit, lift, ret, console_error, setNamespaces, setStats,
    setRecentDocs, update.
  destruct o1 as [|[s1 [b1|]]], o2 as [|[s2 [b2|]]], o3 as [|[s3 [b3|]]];
    (destruct (truthy (filterNamespace r)); [destruct (to_string (filterNamespace r))|]);
    simpl; try reflexivity;
    (destruct (get_prop b1 (u16 "namespaces")); simpl; [|reflexivity]);
    (destruct (get_prop b3 (u16 "documents")); simpl; [|reflexivity]);
    rewrite deriveSelection_kept_eq by exact Hsel; reflexivity.
Qed.

(** A failed sync: nothing but the requests and the log line. *)
Lemma fetchData_failed_eq (o1 o2 o3 : Outcome) (w : World) :
  fails o1 || fails o2 || fails o3 = true ->
  world_of (fetchData r o1 o2 o3 w) = w
  /\ result_of (fetchData r o1 o2 o3 w) = Ok tt
  /\ writes (trace_of (fetchData r o1 o2 o3 w)) = []
  /\ notifications (trace_of (fetchData r o1 o2 o3 w)) = [].
Proof.
  intros Hf.
  unfold fetchData, fetchData_try, fetchData_requests, Promise_all, try_catch, bind,
    settle, json, fetch, emit, lift, ret, console_error.
  destruct o1 as [|[s1 [b1|]]], o2 as [|[s2 [b2|]]], o3 as [|[s3 [b3|]]];
    simpl in Hf; try discriminate;
    (destruct (truthy (filterNamespace r)); [destruct (to_string (filterNamespace r))|]);
    simpl; auto.
Qed.

(** A sync whose three bodies arrive and can be read: lines 33-35 run, then
    the default selection. *)
Lemma fetchData_applied_eq (res1 res2 res3 : Response)
    (nsData statsData recentData nss docs : JsVal) (w : World) :
  sends_requests r = true ->
  body res1 = Some nsData -> body res2 = Some statsData -> body res3 = Some recentData ->
  get_prop nsData (u16 "namespaces") = Ok nss ->
  get_prop recentData (u16 "documents") = Ok docs ->
  world_of (fetchData r (Responded res1) (Responded res2) (Responded res3) w)
  = world_of (deriveSelection r nsData
                {| app := applied nss statsData docs (app w);
                   timers := timers w; clock := clock w |})
  /\ result_of (fetchData r (Responded res1) (Responded res2) (Responded res3) w) = Ok tt
  /\ notifications
       (trace_of (fetchData r (Responded res1) (Responded res2) (Responded res3) w)) = [].
Proof.
  intros Hs Hb1 Hb2 Hb3 Hn Hd.
  pose proof (deriveSelection_frame nsData
                {| app := applied nss statsData docs (app w);
                   timers := timers w; clock := clock w |}) as (_ & _ & _ & Hnote).
  revert Hnote.
  unfold fetchData, fetchData_try, fetchData_requests, Promise_all, try_catch, bind,
    settle, json, fetch, emit, lift, ret, console_error, sends_requests in *.
  destruct (truthy (filterNamespace r)); [destruct (to_string (filterNamespace r))|];
    try discriminate; simpl; rewrite Hb1, Hb2, Hb3; simpl; rewrite Hn; simpl;
    rewrite Hd; simpl; fold (applied nss statsData docs (app w));
    destruct (deriveSelection r nsData _) as [[[[]|e] w4] t4]; simpl;
    intros Hnote; rewrite ?notifications_app, ?Hnote; auto.
Qed.

End Sync.

(** The status of a response plays no part in a sync: a reply with an error
    status and a JSON body is applied like any other. *)
Lemma fetchData_ignores_status `{Platform} (r : AppState) (s1 s1' s2 s2' s3 s3' : Z)
    (b1 b2 b3 : option JsVal) (w : World) :
  fetchData r (Responded {| status := s1; body := b1 |})
              (Responded {| status := s2; body := b2 |})
              (Responded {| status := s3; body := b3 |}) w
  = fetchData r (Responded {| status := s1'; body := b1 |})
                (Responded {| status := s2'; body := b2 |})
                (Responded {| status := s3'; body := b3 |}) w.
Proof. reflexivity. Qed.

(** ** Claims about the sync *)

(** C1, as the code has it: when any of the three read requests is rejected,
    or is answered with a body that cannot be read as JSON, the sync leaves
    [namespaces], [stats] and [recentDocs] as they were: it calls no setter
    at all, does not touch the notification or its timers, and raises no
    notification. *)
Theorem C1_failed_sync_keeps_snapshot `{Platform} (r : AppState) (o1 o2 o3 : Outcome)
    (w : World) :
  fails o1 || fails o2 || fails o3 = true ->
  namespaces (app (world_of (fetchData r o1 o2 o3 w))) = namespaces (app w)
  /\ stats (app (world_of (fetchData r o1 o2 o3 w))) = stats (app w)
  /\ recentDocs (app (world_of (fetchData r o1 o2 o3 w))) = recentDocs (app w)
  /\ toast (app (world_of (fetchData r o1 o2 o3 w))) = toast (app w)
  /\ timers (world_of (fetchData r o1 o2 o3 w)) = timers w
  /\ writes (trace_of (fetchData r o1 o2 o3 w)) = []
  /\ notifications (trace_of (fetchData r o1 o2 o3 w)) = [].
Proof.
  intros Hf. destruct (fetchData_failed_eq r o1 o2 o3 w Hf) as (-> & _ & Hw & Hn).
  repeat split; assumption.
Qed.

Lemma C1_witness :
  fails (Sample.reply 200 (Some Sample.namespaces_body)) || fails Rejected
    || fails (Sample.reply 200 (Some Sample.recent_body)) = true
  /\ stats (app (world_of (fetchData (H := Sample.platform) Sample.render
                             (Sample.reply 200 (Some Sample.namespaces_body)) Rejected
                             (Sample.reply 200 (Some Sample.recent_body)) Sample.world)))
     = stats Sample.render.
Proof.
  split; [reflexivity|].
  exact (proj1 (proj2
    (C1_failed_sync_keeps_snapshot (H := Sample.platform) Sample.render
       (Sample.reply 200 (Some Sample.namespaces_body)) Rejected
       (Sample.reply 200 (Some Sample.recent_body)) Sample.world eq_refl))).
Defined.

(** C1 as stated fails: the stats request is answered 500 with a JSON body,
    which is a failed request, and the sync replaces all three fields:
    [stats] becomes the error body, [namespaces] and [recentDocs] the lists
    of the two other replies. *)
Lemma C1_counterexample :
  ok {| status := 500; body := Some (JObj [(u16 "detail", JStr (u16 "boom"))]) |} = false
  /\ stats (app (world_of (fetchData (H := Sample.platform) Sample.render
                             (Sample.reply 200 (Some Sample.namespaces_body))
                             (Sample.reply 500
                                (Some (JObj [(u16 "detail", JStr (u16 "boom"))])))
                             (Sample.reply 200 (Some Sample.recent_body))
                             Sample.world)))
     = JObj [(u16 "detail", JStr (u16 "boom"))]
  /\ stats Sample.render <> JObj [(u16 "detail", JStr (u16 "boom"))]
  /\ namespaces (app (world_of (fetchData (H := Sample.platform) Sample.render
                                  (Sample.reply 200 (Some Sample.namespaces_body))
                                  (Sample.reply 500
                                     (Some (JObj [(u16 "detail", JStr (u16 "boom"))])))
                                  (Sample.reply 200 (Some Sample.recent_body))
                                  Sample.world)))
     = JArr [Sample.namespace "ProjectB" 4; Sample.namespace "ProjectA" 1]
  /\ namespaces Sample.render
     <> JArr [Sample.namespace "ProjectB" 4; Sample.namespace "ProjectA" 1]
  /\ recentDocs (app (world_of (fetchData (H := Sample.platform) Sample.render
                                  (Sample.reply 200 (Some Sample.namespaces_body))
                                  (Sample.reply 500
                                     (Some (JObj [(u16 "detail", JStr (u16 "boom"))])))
                                  (Sample.reply 200 (Some Sample.recent_body))
                                  Sample.world)))
     = JArr [Sample.document "ProjectB" "second note"]
  /\ recentDocs Sample.render <> JArr [Sample.document "ProjectB" "second note"].
Proof.
  repeat split; discriminate.
Qed.

(** C4: in a render whose selection is the empty string, a fetched list that
    is not empty makes the derivation set [selectedNamespace] to the name of
    its first element; in a render whose selection is not empty, the
    derivation changes nothing, whatever the body holds, so the selection
    stays even when the list no longer has it. *)
Theorem C4_default_selection `{Platform} (r : AppState) (nsData : JsVal) (w : World) :
  (forall first rest name,
      selectedNamespace r = JStr [] ->
      get_prop nsData (u16 "namespaces") = Ok (JArr (first :: rest)) ->
      get_prop first (u16 "name") = Ok name ->
      selectedNamespace (app (world_of (deriveSelection r nsData w))) = name
      /\ trace_of (deriveSelection r nsData w) = [Ev_setSelectedNamespace name])
  /\ (forall s,
      selectedNamespace r = JStr s -> s <> [] ->
      world_of (deriveSelection r nsData w) = w
      /\ trace_of (deriveSelection r nsData w) = []).
Proof.
  split.
  - intros first rest name Hsel Hn Hname.
    rewrite (deriveSelection_first_eq r nsData first name rest w Hsel Hn Hname).
    split; reflexivity.
  - intros s Hsel Hne.
    rewrite (deriveSelection_kept_eq r nsData w).
    + split; reflexivity.
    + rewrite Hsel. destruct s; [contradiction|reflexivity].
Qed.

Lemma C4_witness :
  selectedNamespace
    (app (world_of (deriveSelection (H := Sample.platform) Sample.unselected
                      Sample.namespaces_body Sample.world)))
  = JStr (u16 "ProjectB")
  /\ world_of (deriveSelection (H := Sample.platform) Sample.render
                 (JObj [(u16 "namespaces", JArr [Sample.namespace "ProjectB" 4])])
                 Sample.world)
     = Sample.world.
Proof.
  split.
  - exact (proj1 (proj1
      (C4_default_selection (H := Sample.platform) Sample.unselected
         Sample.namespaces_body Sample.world)
      _ _ _ eq_refl eq_refl eq_refl)).
  - exact (proj1 (proj2
      (C4_default_selection (H := Sample.platform) Sample.render
         (JObj [(u16 "namespaces", JArr [Sample.namespace "ProjectB" 4])]) Sample.world)
      (u16 "ProjectA") eq_refl ltac:(discriminate))).
Defined.

(** A whole sync from a render with nothing selected picks the first name. *)
Example sync_selects_first :
  selectedNamespace
    (app (world_of (fetchData (H := Sample.platform) Sample.unselected
                      (Sample.reply 200 (Some Sample.namespaces_body))
                      (Sample.reply 200 (Some Sample.stats_body))
                      (Sample.reply 200 (Some Sample.recent_body))
                      Sample.world)))
  = JStr (u16 "ProjectB").
Proof. reflexivity. Qed.

(** C9, as the code has it: in a sync whose three requests are sent and
    succeed, and whose namespaces and recent-documents bodies are not
    [null], [namespaces] becomes the body's [namespaces] value if that is
    truthy and the empty list if it is absent or falsy, [recentDocs]
    likewise from [documents], and [stats] becomes the parsed stats body as
    it is. *)
Theorem C9_missing_lists_default_to_empty `{Platform} (r : AppState)
    (res1 res2 res3 : Response) (nsData statsData recentData nss docs : JsVal)
    (w : World) :
  sends_requests r = true ->
  body res1 = Some nsData -> body res2 = Some statsData -> body res3 = Some recentData ->
  get_prop nsData (u16 "namespaces") = Ok nss ->
  get_prop recentData (u16 "documents") = Ok docs ->
  namespaces (app (world_of (fetchData r (Responded res1) (Responded res2)
                               (Responded res3) w)))
  = (if truthy nss then nss else JArr [])
  /\ stats (app (world_of (fetchData r (Responded res1) (Responded res2)
                             (Responded res3) w)))
     = statsData
  /\ recentDocs (app (world_of (fetchData r (Responded res1) (Responded res2)
                                  (Responded res3) w)))
     = (if truthy docs then docs else JArr []).
Proof.
  intros Hs Hb1 Hb2 Hb3 Hn Hd.
  destruct (fetchData_applied_eq r res1 res2 res3 nsData statsData recentData nss docs w
              Hs Hb1 Hb2 Hb3 Hn Hd) as (-> & _ & _).
  destruct (deriveSelection_frame r nsData
              {| app := applied nss statsData docs (app w);
                 timers := timers w; clock := clock w |}) as (-> & -> & -> & _).
  repeat split.
Qed.

Lemma C9_witness :
  sends_requests Sample.render = true
  /\ namespaces (app (world_of (fetchData (H := Sample.platform) Sample.render
                                  (Sample.reply 200 (Some (JObj [])))
                                  (Sample.reply 200 (Some JNull))
                                  (Sample.reply 200 (Some (JObj [])))
                                  Sample.world)))
     = JArr []
  /\ stats (app (world_of (fetchData (H := Sample.platform) Sample.render
                             (Sample.reply 200 (Some (JObj [])))
                             (Sample.reply 200 (Some JNull))
                             (Sample.reply 200 (Some (JObj [])))
                             Sample.world)))
     = JNull.
Proof.
  split; [reflexivity|].
  pose proof (C9_missing_lists_default_to_empty (H := Sample.platform) Sample.render
                {| status := 200; body := Some (JObj []) |}
                {| status := 200; body := Some JNull |}
                {| status := 200; body := Some (JObj []) |}
                (JObj []) JNull (JObj []) JUndefined JUndefined Sample.world
                eq_refl eq_refl eq_refl eq_refl eq_refl eq_refl) as (Hn & Hst & _).
  split; [exact Hn | exact Hst].
Defined.

(** C9 as stated fails: the three requests succeed and the recent-documents
    body, [null], has no [documents] array, yet [recentDocs] keeps its
    former, non-empty value, while [namespaces] and [stats] are replaced.
    And a namespaces body whose [namespaces] is a string, not an array,
    leaves that string in [namespaces], not the empty list. *)
Lemma C9_counterexample :
  fails (Sample.reply 200 (Some Sample.namespaces_body)) = false
  /\ fails (Sample.reply 200 (Some Sample.stats_body)) = false
  /\ fails (Sample.reply 200 (Some JNull)) = false
  /\ recentDocs (app (world_of (fetchData (H := Sample.platform) Sample.render
                                  (Sample.reply 200 (Some Sample.namespaces_body))
                                  (Sample.reply 200 (Some Sample.stats_body))
                                  (Sample.reply 200 (Some JNull))
                                  Sample.world)))
     = recentDocs Sample.render
  /\ recentDocs Sample.render <> JArr []
  /\ namespaces (app (world_of (fetchData (H := Sample.platform) Sample.render
                                  (Sample.reply 200 (Some Sample.namespaces_body))
                                  (Sample.reply 200 (Some Sample.stats_body))
                                  (Sample.reply 200 (Some JNull))
                                  Sample.world)))
     = JArr [Sample.namespace "ProjectB" 4; Sample.namespace "ProjectA" 1]
  /\ stats (app (world_of (fetchData (H := Sample.platform) Sample.render
                             (Sample.reply 200 (Some Sample.namespaces_body))
                             (Sample.reply 200 (Some Sample.stats_body))
                             (Sample.reply 200 (Some JNull))
                             Sample.world)))
     = Sample.stats_body
  /\ namespaces (app (world_of (fetchData (H := Sample.platform) Sample.render
                                  (Sample.reply 200
                                     (Some (JObj [(u16 "namespaces", JStr (u16 "none"))])))
                                  (Sample.reply 200 (Some Sample.stats_body))
                                  (Sample.reply 200 (Some Sample.recent_body))
                                  Sample.world)))
     = JStr (u16 "none").
Proof.
  repeat split. discriminate.
Qed.

(** ** Claims about notifications *)

Lemma existsb_due_false (l : list Z) (t : Z) :
  (forall due, In due l -> t < due) -> existsb (fun due => due <=? t) l = false.
Proof.
  induction l as [|a l IH]; simpl; intros Hall; [reflexivity|].
  rewrite IH by auto.
  replace (a <=? t) with false; [reflexivity|].
  symmetry. apply Z.leb_gt. apply Hall. left. reflexivity.
Qed.

Lemma existsb_due_true (l : list Z) (t due : Z) :
  In due l -> due <= t -> existsb (fun due => due <=? t) l = true.
Proof.
  intros Hin Hle. apply existsb_exists. exists due. split; [exact Hin|].
  apply Z.leb_le. exact Hle.
Qed.

(** C2, as the code has it: a push cancels nothing.  When notification B is
    pushed while the timer of an earlier notification is pending with due
    time [dueA], that timer stays pending next to B's own, due 4000 ms after
    the push; B is on screen as long as no pending timer has come due, and
    is cleared from [dueA] on. *)
Theorem C2_push_keeps_earlier_timer (w : World) (m : JsVal) (k : ToastType) (dueA t : Z) :
  In dueA (timers w) ->
  timers (world_of (showToast m k w)) = timers w ++ [clock w + 4000]
  /\ In dueA (timers (world_of (showToast m k w)))
  /\ toast (app (world_of (showToast m k w))) = Some {| message := m; type := k |}
  /\ ((forall due, In due (timers w) -> t < due) -> t < clock w + 4000 ->
      toast (app (advance t (world_of (showToast m k w))))
      = Some {| message := m; type := k |})
  /\ (dueA <= t -> toast (app (advance t (world_of (showToast m k w)))) = None).
Proof.
  intros HA. rewrite showToast_eq. unfold world_of, advance. simpl.
  split; [reflexivity|]. split; [apply in_or_app; left; exact HA|].
  split; [reflexivity|]. split.
  - intros Hall Hnew.
    rewrite existsb_due_false; [reflexivity|].
    intros due Hin. apply in_app_or in Hin as [Hin|[<-|[]]]; auto.
  - intros Hle.
    rewrite (existsb_due_true _ t dueA); [reflexivity| |exact Hle].
    apply in_or_app. left. exact HA.
Qed.

Lemma C2_witness :
  In 4000 (timers (advance 1000 Sample.after_A))
  /\ toast (app (advance 4000 Sample.after_B)) = None.
Proof.
  split; [left; reflexivity|].
  exact (proj2 (proj2 (proj2 (proj2
    (C2_push_keeps_earlier_timer (advance 1000 Sample.after_A)
       (message Sample.note_B) (type Sample.note_B) 4000 4000
       (or_introl eq_refl))))) ltac:(lia)).
Defined.

(** With no timer pending, a notification does get its 4000 ms. *)
Lemma showToast_alone_full_window (w : World) (m : JsVal) (k : ToastType) (t : Z) :
  timers w = [] ->
  toast (app (advance t (world_of (showToast m k w))))
  = if t <? clock w + 4000 then Some {| message := m; type := k |} else None.
Proof.
  intros Hnone. rewrite showToast_eq. unfold world_of, advance. simpl.
  rewrite Hnone. simpl. rewrite orb_false_r, Z.ltb_antisym.
  destruct (clock w + 4000 <=? t); reflexivity.
Qed.

(** C2 as stated fails: A is pushed at 0 and B at 1000, while A's timer, due
    at 4000, is pending.  That timer is still pending after the push, and
    when it fires B is cleared, 3000 ms into a window that should last until
    5000. *)
Lemma C2_counterexample :
  In 4000 (timers (advance 1000 Sample.after_A))
  /\ clock (advance 1000 Sample.after_A) = 1000
  /\ In 4000 (timers Sample.after_B)
  /\ toast (app (advance 3999 Sample.after_B)) = Some Sample.note_B
  /\ toast (app (advance 4000 Sample.after_B)) = None
  /\ 4000 < 1000 + 4000.
Proof.
  repeat split; left; reflexivity.
Qed.

(** ** Claims about formatTime *)

(** C8: [formatTime] gives the empty string for an empty or absent
    timestamp; for a timestamp at instant [d] and the clock at [now], with
    [diff = floor((now - d) / 1000)], it gives "just now" when [diff < 60],
    else the minutes and "m ago" when [diff < 3600], else the hours and
    "h ago" when [diff < 86400], else the date in the locale's format.  So
    45 s give "just now", 125 s "2m ago" and 7300 s "2h ago". *)
Theorem C8_formatTime_rules `{Platform} (now : Z) (timestamp : JsVal) :
  (truthy timestamp = false -> formatTime now timestamp = Ok [])
  /\ forall d,
       truthy timestamp = true -> Date_new timestamp = Ok (Some d) ->
       ((now - d) / 1000 < 60 -> formatTime now timestamp = Ok (u16 "just now"))
       /\ (60 <= (now - d) / 1000 < 3600 ->
           formatTime now timestamp
           = Ok (Number_toString ((now - d) / 1000 / 60) ++ u16 "m ago"))
       /\ (3600 <= (now - d) / 1000 < 86400 ->
           formatTime now timestamp
           = Ok (Number_toString ((now - d) / 1000 / 3600) ++ u16 "h ago"))
       /\ (86400 <= (now - d) / 1000 ->
           formatTime now timestamp = Ok (Date_toLocaleDateString (Some d)))
       /\ (now - d = 45000 -> formatTime now timestamp = Ok (u16 "just now"))
       /\ (now - d = 125000 -> formatTime now timestamp = Ok (u16 "2m ago"))
       /\ (now - d = 7300000 -> formatTime now timestamp = Ok (u16 "2h ago")).
Proof.
  split.
  - intros Hf. unfold formatTime. rewrite Hf. reflexivity.
  - intros d Ht Hd. unfold formatTime. rewrite Ht, Hd. simpl.
    repeat split.
    + intros Hlt. apply Z.ltb_lt in Hlt. rewrite Hlt. reflexivity.
    + intros [Hge Hlt]. apply Z.ltb_ge in Hge. apply Z.ltb_lt in Hlt.
      rewrite Hge, Hlt. reflexivity.
    + intros [Hge Hlt].
      assert (H60 : ((now - d) / 1000 <? 60) = false) by (apply Z.ltb_ge; lia).
      apply Z.ltb_ge in Hge. apply Z.ltb_lt in Hlt.
      rewrite H60, Hge, Hlt. reflexivity.
    + intros Hge.
      assert (H60 : ((now - d) / 1000 <? 60) = false) by (apply Z.ltb_ge; lia).
      assert (H3600 : ((now - d) / 1000 <? 3600) = false) by (apply Z.ltb_ge; lia).
      apply Z.ltb_ge in Hge. rewrite H60, H3600, Hge. reflexivity.
    + intros ->. reflexivity.
    + intros ->. reflexivity.
    + intros ->. reflexivity.
Qed.

Lemma C8_witness :
  formatTime (H := Sample.platform) 126000 (JNum 1000) = Ok (u16 "2m ago")
  /\ formatTime (H := Sample.platform) 126000 (JStr []) = Ok [].
Proof.
  split.
  - exact (proj1 (proj2 (proj2 (proj2 (proj2 (proj2
      (proj2 (C8_formatTime_rules (H := Sample.platform) 126000 (JNum 1000))
         1000 eq_refl eq_refl))))))
      eq_refl).
  - exact (proj1 (C8_formatTime_rules (H := Sample.platform) 126000 (JStr [])) eq_refl).
Defined.

(** * Further properties *)

(** ** Submission, on every path *)

Section SubmissionPaths.

Variables (r : AppState) (o : Outcome) (w : World).

(** The trace of a call that is not awaited does not depend on the state. *)
Lemma fetchData_call_world (w1 : World) :
  fetchData_call r w1 = (Ok tt, w1, trace_of (fetchData_call r w)).
Proof.
  unfold fetchData_call, fetchData_requests, try_catch, bind, emit, fetch, lift, ret,
    console_error.
  destruct (truthy (filterNamespace r)); [destruct (to_string (filterNamespace r))|];
    reflexivity.
Qed.

(** The three ways a call of the handler can go. *)
Lemma handleIngest_paths :
  (invalid r = true
   /\ handleIngest r o w
      = (Ok tt,
         {| app := with_toast (Some {| message := JStr required_message; type := error |})
                     (app w);
            timers := timers w ++ [clock w + 4000]; clock := clock w |},
         Ev_preventDefault :: raised (JStr required_message) error))
  \/ (invalid r = false /\ succeeds r o = false
      /\ exists m,
           handleIngest r o w
           = (Ok tt, submitted w {| message := m; type := error |} false,
              [Ev_preventDefault; Ev_setLoading true; Ev_fetch (POST_ingest (ingest_body r))]
              ++ raised m error ++ [Ev_setLoading false]))
  \/ (invalid r = false /\ succeeds r o = true
      /\ exists ns,
           to_string (target_namespace r) = Ok ns
           /\ handleIngest r o w
              = (Ok tt,
                 submitted w {| message := JStr (ingested_message ns); type := success |} true,
                 [Ev_preventDefault; Ev_setLoading true;
                  Ev_fetch (POST_ingest (ingest_body r))]
                 ++ (raised (JStr (ingested_message ns)) success
                     ++ [Ev_setText []; Ev_setNewNamespace []]
                     ++ trace_of (fetchData_call r w))
                 ++ [Ev_setLoading false])).
Proof.
  destruct (invalid r) eqn:Hv.
  { left. split; [reflexivity|]. apply handleIngest_invalid_eq. exact Hv. }
  right. unfold succeeds. rewrite Hv. simpl.
  assert (Hcaught : throws r o ->
    exists m,
      handleIngest r o w
      = (Ok tt, submitted w {| message := m; type := error |} false,
         [Ev_preventDefault; Ev_setLoading true; Ev_fetch (POST_ingest (ingest_body r))]
         ++ raised m error ++ [Ev_setLoading false])).
  { intros Ht. exists (JStr network_message). apply handleIngest_caught_eq; assumption. }
  destruct o as [|res].
  { left. repeat split. apply Hcaught. left. reflexivity. }
  destruct (body res) as [data|] eqn:Hb.
  2:{ left. rewrite andb_false_r. repeat split. apply Hcaught. right. left. eauto. }
  destruct (ok res) eqn:Hok; simpl.
  - destruct (to_string (target_namespace r)) as [ns|e] eqn:Hs.
    + right. repeat split. exists ns. split; [reflexivity|].
      unfold handleIngest, bind at 1, emit. rewrite Hv.
      unfold handleIngest_try, try_finally, try_catch, bind, settle, json, fetch, emit,
        lift, ret, setLoading, update; simpl. rewrite Hb; simpl. rewrite Hok, Hs. simpl.
      unfold setText, setNewNamespace, update; simpl.
      rewrite fetchData_call_world. reflexivity.
    + left. repeat split. apply Hcaught. right. right. left. exists res, data, e. auto.
  - left. repeat split.
    destruct (get_prop data (u16 "detail")) as [detail|e] eqn:Hd.
    + exists (js_or detail (JStr failed_message)).
      apply (handleIngest_http_error_eq r w res data detail); assumption.
    + apply Hcaught. right. right. right. exists res, data, e. auto.
Qed.

End SubmissionPaths.

(** X1: the submit button is disabled exactly when a submission is in flight
    or the handler's own validation would fail; and the handler never reads
    the flag, so the button is the only thing that keeps a second submission
    from going out while the first is in flight. *)
Theorem X1_button_is_the_only_guard (r : AppState) :
  submit_disabled r = (loading r || invalid r)
  /\ forall (b : bool) (o : Outcome) (w : World),
       handleIngest (with_loading b r) o w = handleIngest r o w.
Proof.
  split.
  - unfold submit_disabled, invalid, target_namespace, js_or.
    destruct (loading r), (trim (newNamespace r)); simpl; try reflexivity;
      destruct (truthy (selectedNamespace r)), (trim (text r)); reflexivity.
  - intros b o w. reflexivity.
Qed.

(** X2: the success notification, the clearing of the two drafts and the
    start of a sync happen together or not at all.  When the submission
    succeeds all three happen, once; on every other path the drafts are left
    as they are, no sync is started, and the one notification raised is an
    error. *)
Theorem X2_success_effects_go_together (r : AppState) (o : Outcome) (w : World) :
  (succeeds r o = true ->
   text (app (world_of (handleIngest r o w))) = []
   /\ newNamespace (app (world_of (handleIngest r o w))) = []
   /\ syncs (trace_of (handleIngest r o w)) = 1%nat
   /\ exists m, notifications (trace_of (handleIngest r o w))
                = [{| message := m; type := success |}])
  /\ (succeeds r o = false ->
      text (app (world_of (handleIngest r o w))) = text (app w)
      /\ newNamespace (app (world_of (handleIngest r o w))) = newNamespace (app w)
      /\ syncs (trace_of (handleIngest r o w)) = 0%nat
      /\ exists m, notifications (trace_of (handleIngest r o w))
                   = [{| message := m; type := error |}]).
Proof.
  destruct (fetchData_call_eq r w) as (tr & Hcall & Hsy & Hno & _).
  assert (Htr : trace_of (fetchData_call r w) = tr) by (rewrite Hcall; reflexivity).
  destruct (handleIngest_paths r o w)
    as [(Hv & ->)|[(Hv & Hs & m & ->)|(Hv & Hs & ns & _ & ->)]];
    rewrite ?Htr; split; intros Hs'; try congruence.
  - unfold succeeds in Hs'. rewrite Hv in Hs'. discriminate.
  - repeat split. eexists. reflexivity.
  - repeat split. eexists. reflexivity.
  - unfold trace_of, world_of. simpl.
    rewrite syncs_app, notifications_app, Hsy, Hno. repeat split. eexists. reflexivity.
Qed.

Lemma X2_witness :
  (succeeds Sample.render (Sample.reply 201 (Some JNull)) = true
   /\ syncs (trace_of (handleIngest Sample.render (Sample.reply 201 (Some JNull))
                         Sample.world)) = 1%nat)
  /\ (succeeds Sample.render Rejected = false
      /\ text (app (world_of (handleIngest Sample.render Rejected Sample.world)))
         = text (app Sample.world)).
Proof.
  split; (split; [reflexivity|]).
  - exact (proj1 (proj2 (proj2
      (proj1 (X2_success_effects_go_together Sample.render
                (Sample.reply 201 (Some JNull)) Sample.world) eq_refl)))).
  - exact (proj1
      (proj2 (X2_success_effects_go_together Sample.render Rejected Sample.world)
         eq_refl)).
Defined.

(** X3: the handler never throws, whatever the request does, and writes
    nothing but the notification, the drafts and the flag: the synced data,
    the selection and the filter stay as they are, exactly one dismiss timer
    is added, and the flag ends false unless validation failed, in which
    case it is left alone. *)
Theorem X3_handleIngest_frame (r : AppState) (o : Outcome) (w : World) :
  result_of (handleIngest r o w) = Ok tt
  /\ namespaces (app (world_of (handleIngest r o w))) = namespaces (app w)
  /\ stats (app (world_of (handleIngest r o w))) = stats (app w)
  /\ recentDocs (app (world_of (handleIngest r o w))) = recentDocs (app w)
  /\ selectedNamespace (app (world_of (handleIngest r o w))) = selectedNamespace (app w)
  /\ filterNamespace (app (world_of (handleIngest r o w))) = filterNamespace (app w)
  /\ timers (world_of (handleIngest r o w)) = timers w ++ [clock w + 4000]
  /\ clock (world_of (handleIngest r o w)) = clock w
  /\ loading (app (world_of (handleIngest r o w)))
     = (if invalid r then loading (app w) else false).
Proof.
  destruct (handleIngest_paths r o w)
    as [(Hv & ->)|[(Hv & Hs & m & ->)|(Hv & Hs & ns & _ & ->)]];
    rewrite Hv; repeat split.
Qed.

(** X4: when the request of a valid submission is rejected, or its response
    has a body that is not JSON, the one notification is the network error,
    whatever the status was, and the request is not sent again. *)
Theorem X4_unreadable_response_is_a_network_error (r : AppState) (o : Outcome)
    (w : World) :
  invalid r = false -> fails o = true ->
  notifications (trace_of (handleIngest r o w))
  = [{| message := JStr network_message; type := error |}]
  /\ requests (trace_of (handleIngest r o w)) = [POST_ingest (ingest_body r)].
Proof.
  intros Hv Hf.
  rewrite (handleIngest_caught_eq r w o Hv).
  - split; reflexivity.
  - destruct o as [|res]; [left; reflexivity|].
    right. left. exists res. split; [reflexivity|].
    simpl in Hf. destruct (body res); [discriminate|reflexivity].
Qed.

Lemma X4_witness :
  (invalid Sample.render = false /\ fails (Sample.reply 200 None) = true)
  /\ notifications (trace_of (handleIngest Sample.render (Sample.reply 200 None)
                                Sample.world))
     = [{| message := JStr network_message; type := error |}].
Proof.
  split; [split; reflexivity|].
  exact (proj1 (X4_unreadable_response_is_a_network_error Sample.render
                  (Sample.reply 200 None) Sample.world eq_refl eq_refl)).
Defined.

(** X5: a call of the handler sends no request when validation fails and
    exactly one ingestion request otherwise; the only requests that can
    follow it are those of the sync a success starts. *)
Theorem X5_requests_of_a_submission (r : AppState) (o : Outcome) (w : World) :
  requests (trace_of (handleIngest r o w))
  = if invalid r then []
    else POST_ingest (ingest_body r)
         :: (if succeeds r o then requests (trace_of (fetchData_call r w)) else []).
Proof.
  destruct (handleIngest_paths r o w)
    as [(Hv & ->)|[(Hv & Hs & m & ->)|(Hv & Hs & ns & _ & ->)]];
    rewrite Hv, ?Hs; try reflexivity.
  unfold trace_of. simpl. rewrite requests_app. simpl. rewrite app_nil_r. reflexivity.
Qed.

(** ** What [trim] leaves *)

Section Trim.

Lemma forallb_rev (f : N -> bool) (l : jsstring) : forallb f (rev l) = forallb f l.
Proof.
  induction l as [|c l IH]; simpl; [reflexivity|].
  rewrite forallb_app, IH. simpl. rewrite andb_true_r. apply andb_comm.
Qed.

Lemma trim_start_split (s : jsstring) :
  exists pre, s = pre ++ trim_start s /\ forallb is_white pre = true.
Proof.
  induction s as [|c s (pre & Hs & Hpre)]; simpl.
  - exists []. split; reflexivity.
  - destruct (is_white c) eqn:Hc.
    + exists (c :: pre). simpl. rewrite Hc, Hpre. split; [f_equal; exact Hs|reflexivity].
    + exists []. split; reflexivity.
Qed.

Lemma trim_start_head (s rest : jsstring) (c : N) :
  trim_start s = c :: rest -> is_white c = false.
Proof.
  induction s as [|a s IH]; simpl; [discriminate|].
  destruct (is_white a) eqn:Ha; [exact IH|].
  intros Heq. injection Heq as -> _. exact Ha.
Qed.

(** [trim] removes a run of whitespace at each end and nothing else, and
    what is left neither starts nor ends with whitespace. *)
Lemma trim_spec (s : jsstring) :
  (exists pre post,
      s = pre ++ trim s ++ post
      /\ forallb is_white pre = true /\ forallb is_white post = true)
  /\ (forall c rest, trim s = c :: rest -> is_white c = false)
  /\ (forall c front, trim s = front ++ [c] -> is_white c = false).
Proof.
  destruct (trim_start_split s) as (pre & Hs & Hpre).
  destruct (trim_start_split (rev (trim_start s))) as (post & Hr & Hpost).
  assert (Hend : trim_start s = trim s ++ rev post).
  { unfold trim. rewrite <- rev_app_distr, <- Hr, rev_involutive. reflexivity. }
  split; [|split].
  - exists pre, (rev post). rewrite <- Hend. split; [exact Hs|].
    split; [exact Hpre|]. rewrite forallb_rev. exact Hpost.
  - intros c rest Hc. rewrite Hc in Hend. simpl in Hend.
    exact (trim_start_head s _ c Hend).
  - intros c front Hc.
    apply (trim_start_head (rev (trim_start s)) (rev front) c).
    unfold trim in Hc. apply (f_equal (@rev N)) in Hc.
    rewrite rev_involutive, rev_app_distr in Hc. exact Hc.
Qed.

Lemma trim_idempotent (s : jsstring) : trim (trim s) = trim s.
Proof.
  destruct (trim_spec s) as (_ & Hhead & Hlast).
  assert (Hfix : forall l : jsstring,
             (forall c rest, l = c :: rest -> is_white c = false) -> trim_start l = l).
  { intros [|c l] Hl; simpl; [reflexivity|]. rewrite (Hl c l eq_refl). reflexivity. }
  unfold trim at 1. rewrite (Hfix (trim s) Hhead).
  rewrite Hfix; [apply rev_involutive|].
  intros c rest Hc. apply (Hlast c (rev rest)).
  rewrite <- (rev_involutive (trim s)), Hc. reflexivity.
Qed.

End Trim.

(** X6: the text a valid submission sends is never empty and is the draft
    with exactly the whitespace at its two ends removed: the draft is a run
    of whitespace, then the text sent, then a run of whitespace, and the
    text sent starts and ends with a character that is not whitespace.
    Trimming it again changes nothing. *)
Theorem X6_sent_text_is_the_trimmed_draft (r : AppState) (o : Outcome) (w : World) :
  invalid r = false ->
  exists sent,
    hd_error (requests (trace_of (handleIngest r o w)))
    = Some (POST_ingest (JObj [(u16 "namespace", target_namespace r);
                               (u16 "text", JStr sent)]))
    /\ sent <> []
    /\ (exists pre post,
           text r = pre ++ sent ++ post
           /\ forallb is_white pre = true /\ forallb is_white post = true)
    /\ (forall c rest, sent = c :: rest -> is_white c = false)
    /\ (forall c front, sent = front ++ [c] -> is_white c = false)
    /\ trim sent = sent.
Proof.
  intros Hv. exists (trim (text r)).
  destruct (trim_spec (text r)) as (Hsplit & Hhead & Hlast).
  split; [|split; [|split; [exact Hsplit|split; [exact Hhead|split; [exact Hlast|]]]]].
  - destruct (handleIngest_valid_shape r w o Hv) as (mid & _ & -> & _). reflexivity.
  - intros Hnil.
    assert (Hi : invalid r = true) by (apply invalid_iff; right; exact Hnil).
    congruence.
  - apply trim_idempotent.
Qed.

Lemma X6_witness :
  invalid (with_text (u16 "  two words ") Sample.render) = false
  /\ exists sent,
       hd_error (requests (trace_of (handleIngest (with_text (u16 "  two words ")
                                                     Sample.render)
                                       Rejected Sample.world)))
       = Some (POST_ingest (JObj [(u16 "namespace", JStr (u16 "ProjectA"));
                                  (u16 "text", JStr sent)]))
       /\ trim sent = sent.
Proof.
  split; [reflexivity|].
  destruct (X6_sent_text_is_the_trimmed_draft (with_text (u16 "  two words ") Sample.render)
              Rejected Sample.world eq_refl) as (sent & Hreq & _ & _ & _ & _ & Hfix).
  exists sent. split; [exact Hreq | exact Hfix].
Defined.

(** ** A sync, on every path *)

Section SyncPaths.

Context `{Platform}.
Variable r : AppState.

(** The default selection either writes nothing or writes the selection,
    and nothing else. *)
Lemma deriveSelection_cases (nsData : JsVal) (w : World) :
  (exists res, deriveSelection r nsData w = (res, w, []))
  \/ (exists name,
         truthy (selectedNamespace r) = false
         /\ deriveSelection r nsData w
            = (Ok tt,
               {| app := with_selectedNamespace name (app w);
                  timers := timers w; clock := clock w |},
               [Ev_setSelectedNamespace name])).
Proof.
  unfold deriveSelection, bind, lift, ret, setSelectedNamespace, update.
  destruct (truthy (selectedNamespace r)); simpl; [left; eexists; reflexivity|].
  destruct (get_prop nsData (u16 "namespaces")) as [nss|];
    simpl; [|left; eexists; reflexivity].
  destruct (gt_zero (opt_length nss)) as [[|]|]; simpl;
    try (left; eexists; reflexivity).
  destruct (get_first nss) as [first|]; simpl; [|left; eexists; reflexivity].
  destruct (get_prop first (u16 "name")) as [name|]; simpl;
    [|left; eexists; reflexivity].
  right. exists name. split; reflexivity.
Qed.

(** Every way a sync can go: it returns, keeps the timers and the clock,
    raises nothing, sends what [fetchData_requests] sends, and its writes
    are a prefix of: namespaces, stats, recent documents, selection. *)
Lemma fetchData_cases (o1 o2 o3 : Outcome) (w : World) :
  result_of (fetchData r o1 o2 o3 w) = Ok tt
  /\ timers (world_of (fetchData r o1 o2 o3 w)) = timers w
  /\ clock (world_of (fetchData r o1 o2 o3 w)) = clock w
  /\ notifications (trace_of (fetchData r o1 o2 o3 w)) = []
  /\ requests (trace_of (fetchData r o1 o2 o3 w))
     = requests (trace_of (fetchData_requests r w))
  /\ syncs (trace_of (fetchData r o1 o2 o3 w)) = 1%nat
  /\ ((writes (trace_of (fetchData r o1 o2 o3 w)) = []
       /\ app (world_of (fetchData r o1 o2 o3 w)) = app w)
      \/ (exists nss st,
             writes (trace_of (fetchData r o1 o2 o3 w))
             = [Ev_setNamespaces (js_or nss (JArr [])); Ev_setStats st]
             /\ app (world_of (fetchData r o1 o2 o3 w))
                = with_stats st (with_namespaces (js_or nss (JArr [])) (app w)))
      \/ (exists nss st docs,
             writes (trace_of (fetchData r o1 o2 o3 w))
             = [Ev_setNamespaces (js_or nss (JArr [])); Ev_setStats st;
                Ev_setRecentDocs (js_or docs (JArr []))]
             /\ app (world_of (fetchData r o1 o2 o3 w)) = applied nss st docs (app w))
      \/ (exists nss st docs name,
             truthy (selectedNamespace r) = false
             /\ writes (trace_of (fetchData r o1 o2 o3 w))
                = [Ev_setNamespaces (js_or nss (JArr [])); Ev_setStats st;
                   Ev_setRecentDocs (js_or docs (JArr []));
                   Ev_setSelectedNamespace name]
             /\ app (world_of (fetchData r o1 o2 o3 w))
                = with_selectedNamespace name (applied nss st docs (app w)))).
Proof.
  destruct w as [a ts c].
  unfold fetchData, fetchData_try, fetchData_requests, Promise_all, try_catch, bind,
    settle, json, fetch, emit, lift, ret, console_error, setNamespaces, setStats,
    setRecentDocs, update.
  destruct o1 as [|[s1 [b1|]]], o2 as [|[s2 [b2|]]], o3 as [|[s3 [b3|]]];
    (destruct (truthy (filterNamespace r)); [destruct (to_string (filterNamespace r))|]);
    simpl; try (repeat split; left; split; reflexivity);
    (destruct (get_prop b1 (u16 "namespaces")) as [nss|]; simpl;
     [|repeat split; left; split; reflexivity]);
    (destruct (get_prop b3 (u16 "documents")) as [docs|]; simpl;
     [|repeat split; right; left; exists nss, b2; split; reflexivity]);
    match goal with
    | |- context [deriveSelection ?r0 ?d ?w0] =>
        destruct (deriveSelection_cases d w0) as [([[]|e] & ->)|(name & Hsel & ->)]
    end; simpl; repeat split;
    try (right; right; left; exists nss, b2, docs; split; reflexivity);
    right; right; right; exists nss, b2, docs, name; repeat split; exact Hsel.
Qed.

End SyncPaths.

(** X7: a sync never throws and never shows anything, however its requests
    settle: it raises no notification and leaves the notification, its
    timers, the clock, the drafts, the submitting flag and the filter as
    they are. *)
Theorem X7_sync_is_silent_and_confined `{Platform} (r : AppState) (o1 o2 o3 : Outcome)
    (w : World) :
  result_of (fetchData r o1 o2 o3 w) = Ok tt
  /\ notifications (trace_of (fetchData r o1 o2 o3 w)) = []
  /\ toast (app (world_of (fetchData r o1 o2 o3 w))) = toast (app w)
  /\ timers (world_of (fetchData r o1 o2 o3 w)) = timers w
  /\ clock (world_of (fetchData r o1 o2 o3 w)) = clock w
  /\ text (app (world_of (fetchData r o1 o2 o3 w))) = text (app w)
  /\ newNamespace (app (world_of (fetchData r o1 o2 o3 w))) = newNamespace (app w)
  /\ loading (app (world_of (fetchData r o1 o2 o3 w))) = loading (app w)
  /\ filterNamespace (app (world_of (fetchData r o1 o2 o3 w))) = filterNamespace (app w).
Proof.
  destruct (fetchData_cases r o1 o2 o3 w) as (Hres & Ht & Hc & Hn & _ & _ & Hw).
  repeat (split; [assumption|]).
  destruct Hw as [(_ & ->)|[(nss & st & _ & ->)|[(nss & st & docs & _ & ->)
                 |(nss & st & docs & name & _ & _ & ->)]]]; repeat split; assumption.
Qed.

(** X8: the setters of a sync run in one order, each only after all the
    earlier ones: namespaces, stats, recent documents, selection.  So stats
    is never replaced by a sync that did not replace namespaces, and the
    selection is only written by a sync that replaced all three and whose
    render had no selection; and the values given to [setNamespaces] and
    [setRecentDocs] are never falsy. *)
Theorem X8_sync_writes_in_order `{Platform} (r : AppState) (o1 o2 o3 : Outcome)
    (w : World) :
  writes (trace_of (fetchData r o1 o2 o3 w)) = []
  \/ (exists n s, truthy n = true
        /\ writes (trace_of (fetchData r o1 o2 o3 w))
           = [Ev_setNamespaces n; Ev_setStats s])
  \/ (exists n s d, truthy n = true /\ truthy d = true
        /\ writes (trace_of (fetchData r o1 o2 o3 w))
           = [Ev_setNamespaces n; Ev_setStats s; Ev_setRecentDocs d])
  \/ (exists n s d name, truthy n = true /\ truthy d = true
        /\ truthy (selectedNamespace r) = false
        /\ writes (trace_of (fetchData r o1 o2 o3 w))
           = [Ev_setNamespaces n; Ev_setStats s; Ev_setRecentDocs d;
              Ev_setSelectedNamespace name]).
Proof.
  assert (Hor : forall v, truthy (js_or v (JArr [])) = true).
  { intros v. unfold js_or. destruct (truthy v) eqn:Hv; [exact Hv|reflexivity]. }
  destruct (fetchData_cases r o1 o2 o3 w) as (_ & _ & _ & _ & _ & _ & Hw).
  destruct Hw as [(-> & _)|[(nss & st & -> & _)|[(nss & st & docs & -> & _)
                 |(nss & st & docs & name & Hsel & -> & _)]]].
  - left. reflexivity.
  - right. left. eexists _, _. split; [apply Hor|reflexivity].
  - right. right. left. eexists _, _, _. repeat split; apply Hor.
  - right. right. right. eexists _, _, _, _. repeat split; try apply Hor. exact Hsel.
Qed.

(** X9: the URLs a sync fetches do not depend on how its requests settle:
    always [API_URL/namespaces], then [API_URL/stats], then
    [API_URL/recent?limit=10], the last one followed by [&namespace=] and the
    filter when the render's filter is a non-empty string.  The filter is
    appended as it is, not encoded: whatever a name holds after an [&] ends
    up as further text of the query. *)
Theorem X9_sync_urls `{Platform} (api : jsstring) (r : AppState) (o1 o2 o3 : Outcome)
    (w : World) :
  (truthy (filterNamespace r) = false ->
   map (Url.url api) (requests (trace_of (fetchData r o1 o2 o3 w)))
   = [api ++ u16 "/namespaces"; api ++ u16 "/stats"; api ++ u16 "/recent?limit=10"])
  /\ (forall s, filterNamespace r = JStr s -> s <> [] ->
      map (Url.url api) (requests (trace_of (fetchData r o1 o2 o3 w)))
      = [api ++ u16 "/namespaces"; api ++ u16 "/stats";
         api ++ u16 "/recent?limit=10&namespace=" ++ s])
  /\ (forall s more,
        Url.url api (GET_recent 10 (Some (s ++ u16 "&" ++ more)))
        = Url.url api (GET_recent 10 (Some s)) ++ u16 "&" ++ more).
Proof.
  destruct (fetchData_cases r o1 o2 o3 w) as (_ & _ & _ & _ & -> & _).
  unfold fetchData_requests, bind, fetch, emit, lift, ret. split; [|split].
  - intros ->. reflexivity.
  - intros s -> Hne. destruct s; [contradiction|reflexivity].
  - intros s more. unfold Url.url. rewrite <- !app_assoc. reflexivity.
Qed.

Lemma X9_witness :
  map (Url.url (Url.API_URL None))
    (requests (trace_of (fetchData (H := Sample.platform) Sample.render
                           Rejected Rejected Rejected Sample.world)))
  = [u16 "http://localhost:8000/namespaces"; u16 "http://localhost:8000/stats";
     u16 "http://localhost:8000/recent?limit=10"]
  /\ map (Url.url (Url.API_URL None))
       (requests (trace_of (fetchData (H := Sample.platform)
                              (with_filterNamespace (JStr (u16 "R&D")) Sample.render)
                              Rejected Rejected Rejected Sample.world)))
     = [u16 "http://localhost:8000/namespaces"; u16 "http://localhost:8000/stats";
        u16 "http://localhost:8000/recent?limit=10&namespace=R&D"].
Proof.
  split.
  - exact (proj1 (X9_sync_urls (H := Sample.platform) (Url.API_URL None) Sample.render
                    Rejected Rejected Rejected Sample.world) eq_refl).
  - exact (proj1 (proj2 (X9_sync_urls (H := Sample.platform) (Url.API_URL None)
                           (with_filterNamespace (JStr (u16 "R&D")) Sample.render)
                           Rejected Rejected Rejected Sample.world))
             (u16 "R&D") eq_refl ltac:(discriminate)).
Defined.

(** X10: [namespaces] and [recentDocs] are never made falsy by a sync, so
    they are never [null] or [undefined] and reading their [length] in the
    view cannot throw. *)
Theorem X10_synced_lists_stay_truthy `{Platform} (r : AppState) (o1 o2 o3 : Outcome)
    (w : World) :
  truthy (namespaces (app w)) = true -> truthy (recentDocs (app w)) = true ->
  truthy (namespaces (app (world_of (fetchData r o1 o2 o3 w)))) = true
  /\ truthy (recentDocs (app (world_of (fetchData r o1 o2 o3 w)))) = true
  /\ exists n, get_length (namespaces (app (world_of (fetchData r o1 o2 o3 w)))) = Ok n.
Proof.
  intros Hn Hd.
  assert (Hor : forall v, truthy (js_or v (JArr [])) = true).
  { intros v. unfold js_or. destruct (truthy v) eqn:Hv; [exact Hv|reflexivity]. }
  assert (Hlen : forall v, truthy v = true -> exists n, get_length v = Ok n).
  { intros v Hv. unfold get_length. destruct v; try discriminate; eexists; reflexivity. }
  destruct (fetchData_cases r o1 o2 o3 w) as (_ & _ & _ & _ & _ & _ & Hw).
  destruct Hw as [(_ & ->)|[(nss & st & _ & ->)|[(nss & st & docs & _ & ->)
                 |(nss & st & docs & name & _ & _ & ->)]]]; simpl;
    repeat split; auto.
Qed.

Lemma X10_witness :
  truthy (namespaces (app Sample.world)) = true
  /\ truthy (namespaces
               (app (world_of (fetchData (H := Sample.platform) Sample.render
                                 (Sample.reply 200 (Some (JObj [])))
                                 (Sample.reply 200 (Some JNull))
                                 (Sample.reply 200 (Some (JNum 3)))
                                 Sample.world)))) = true.
Proof.
  split; [reflexivity|].
  exact (proj1 (X10_synced_lists_stay_truthy (H := Sample.platform) Sample.render
                  (Sample.reply 200 (Some (JObj []))) (Sample.reply 200 (Some JNull))
                  (Sample.reply 200 (Some (JNum 3))) Sample.world eq_refl eq_refl)).
Defined.

(** ** The view after a sync *)

(** X11: a stat card shows the count the backend gave or 0, never another
    falsy value; and the stats bar can be rendered exactly when [stats] is
    neither [null] nor [undefined].  A sync stores the stats body as it is,
    so after a sync whose three requests succeed with a stats body that is
    JSON [null], rendering the stats bar throws. *)
Theorem X11_stats_bar `{Platform} (s : AppState) :
  (nullish (namespaces s) = false ->
   (stats_bar s = Throw TypeError <-> nullish (stats s) = true))
  /\ (forall total vectorized count,
        stats_bar s = Ok (total, vectorized, count) ->
        (total = JNum 0 \/ truthy total = true)
        /\ (vectorized = JNum 0 \/ truthy vectorized = true))
  /\ (forall (r : AppState) (res1 res2 res3 : Response) (nsData recentData nss docs : JsVal)
             (w : World),
        s = app (world_of (fetchData r (Responded res1) (Responded res2)
                             (Responded res3) w)) ->
        sends_requests r = true ->
        body res1 = Some nsData -> body res2 = Some JNull -> body res3 = Some recentData ->
        get_prop nsData (u16 "namespaces") = Ok nss ->
        get_prop recentData (u16 "documents") = Ok docs ->
        stats_bar s = Throw TypeError).
Proof.
  split; [|split].
  - intros Hn. unfold stats_bar, get_length. rewrite Hn.
    destruct (stats s); simpl; split; intros Hq; try discriminate; try reflexivity.
  - intros total vectorized count. unfold stats_bar.
    destruct (get_prop (stats s) (u16 "total_documents")) as [t|]; [|discriminate].
    destruct (get_prop (stats s) (u16 "vectorized")) as [v|]; [|discriminate].
    destruct (get_length (namespaces s)); [|discriminate].
    intros Heq. injection Heq as <- <- _. unfold js_or.
    destruct (truthy t) eqn:Ht, (truthy v) eqn:Hv; auto.
  - intros r res1 res2 res3 nsData recentData nss docs w -> Hs Hb1 Hb2 Hb3 Hn Hd.
    destruct (fetchData_applied_eq r res1 res2 res3 nsData JNull recentData nss docs w
                Hs Hb1 Hb2 Hb3 Hn Hd) as (-> & _ & _).
    unfold stats_bar.
    destruct (deriveSelection_frame r nsData
                {| app := applied nss JNull docs (app w);
                   timers := timers w; clock := clock w |}) as (_ & -> & _ & _).
    reflexivity.
Qed.

Lemma X11_witness :
  nullish (namespaces Sample.render) = false
  /\ stats_bar (app (world_of (fetchData (H := Sample.platform) Sample.render
                                 (Sample.reply 200 (Some Sample.namespaces_body))
                                 (Sample.reply 200 (Some JNull))
                                 (Sample.reply 200 (Some Sample.recent_body))
                                 Sample.world)))
     = Throw TypeError.
Proof.
  split; [reflexivity|].
  exact (proj2 (proj2 (X11_stats_bar (H := Sample.platform) _))
           Sample.render {| status := 200; body := Some Sample.namespaces_body |}
           {| status := 200; body := Some JNull |}
           {| status := 200; body := Some Sample.recent_body |}
           _ _ _ _ Sample.world eq_refl eq_refl eq_refl eq_refl eq_refl eq_refl eq_refl).
Defined.

(** X12: what the user picks in the select meets the sync as follows.  A
    name that is not empty is kept by every sync of the new render, however
    its requests settle.  The placeholder, whose value is the empty string,
    does not last: the next sync that succeeds with a list that is not empty
    selects the first name again. *)
Theorem X12_picked_selection_and_sync `{Platform} (value : jsstring) (w : World) :
  (value <> [] ->
   forall o1 o2 o3,
     selectedNamespace
       (app (world_of (fetchData (select_onChange value (app w)) o1 o2 o3
                         (input (select_onChange value) w))))
     = JStr value)
  /\ (value = [] ->
      forall (res1 res2 res3 : Response) (nsData statsData recentData docs first name : JsVal)
             (rest : list JsVal),
        sends_requests (app w) = true ->
        body res1 = Some nsData -> body res2 = Some statsData ->
        body res3 = Some recentData ->
        get_prop nsData (u16 "namespaces") = Ok (JArr (first :: rest)) ->
        get_prop recentData (u16 "documents") = Ok docs ->
        get_prop first (u16 "name") = Ok name ->
        selectedNamespace
          (app (world_of (fetchData (select_onChange value (app w))
                            (Responded res1) (Responded res2) (Responded res3)
                            (input (select_onChange value) w))))
        = name).
Proof.
  split.
  - intros Hne o1 o2 o3.
    rewrite fetchData_keeps_selection; [reflexivity|].
    destruct value; [contradiction|reflexivity].
  - intros -> res1 res2 res3 nsData statsData recentData docs first name rest
           Hs Hb1 Hb2 Hb3 Hn Hd Hname.
    destruct (fetchData_applied_eq (select_onChange [] (app w)) res1 res2 res3
                nsData statsData recentData (JArr (first :: rest)) docs
                (input (select_onChange []) w) Hs Hb1 Hb2 Hb3 Hn Hd) as (-> & _ & _).
    rewrite (deriveSelection_first_eq (select_onChange [] (app w)) nsData first name rest
               _ eq_refl Hn Hname).
    reflexivity.
Qed.

Lemma X12_witness :
  selectedNamespace
    (app (world_of (fetchData (H := Sample.platform)
                      (select_onChange (u16 "Gone") (app Sample.world))
                      (Sample.reply 200 (Some Sample.namespaces_body))
                      (Sample.reply 200 (Some Sample.stats_body))
                      (Sample.reply 200 (Some Sample.recent_body))
                      (input (select_onChange (u16 "Gone")) Sample.world))))
  = JStr (u16 "Gone")
  /\ selectedNamespace
       (app (world_of (fetchData (H := Sample.platform)
                         (select_onChange [] (app Sample.world))
                         (Sample.reply 200 (Some Sample.namespaces_body))
                         (Sample.reply 200 (Some Sample.stats_body))
                         (Sample.reply 200 (Some Sample.recent_body))
                         (input (select_onChange []) Sample.world))))
     = JStr (u16 "ProjectB").
Proof.
  split.
  - exact (proj1 (X12_picked_selection_and_sync (H := Sample.platform) (u16 "Gone") Sample.world)
             ltac:(discriminate) _ _ _).
  - exact (proj2 (X12_picked_selection_and_sync (H := Sample.platform) [] Sample.world) eq_refl
             {| status := 200; body := Some Sample.namespaces_body |}
             {| status := 200; body := Some Sample.stats_body |}
             {| status := 200; body := Some Sample.recent_body |}
             _ _ _ _ _ _ _ eq_refl eq_refl eq_refl eq_refl eq_refl eq_refl eq_refl).
Defined.

(** ** A conforming backend keeps the state in shape *)

Section Typed.

Context `{Platform}.
Variable r : AppState.

(** A render that cannot build the URL of its third request changes
    nothing. *)
Lemma fetchData_unsent (o1 o2 o3 : Outcome) (w : World) :
  sends_requests r = false -> world_of (fetchData r o1 o2 o3 w) = w.
Proof.
  unfold sends_requests, fetchData, fetchData_try, fetchData_requests, try_catch, bind,
    fetch, emit, lift, ret, console_error.
  destruct (truthy (filterNamespace r)); [|discriminate].
  destruct (to_string (filterNamespace r)); [discriminate|]. reflexivity.
Qed.

Lemma deriveSelection_typed (nsData : JsVal) (w : World) :
  namespaces_reply nsData = true -> typed (app w) = true ->
  typed (app (world_of (deriveSelection r nsData w))) = true.
Proof.
  intros Hreply Ht.
  destruct nsData as [| | | | | |props]; try discriminate. simpl in Hreply.
  unfold deriveSelection, bind, lift, ret, setSelectedNamespace, update.
  destruct (truthy (selectedNamespace r)); simpl; [exact Ht|].
  destruct (own props (u16 "namespaces")) as [nss|]; [|discriminate].
  destruct nss as [| | | | |elems|]; try discriminate. simpl in Hreply.
  destruct elems as [|first rest]; simpl; [exact Ht|].
  apply andb_prop in Hreply as [Hfirst _].
  destruct first as [| | | | | |fprops]; try discriminate. simpl in Hfirst. simpl.
  destruct (own fprops (u16 "name")) as [[| | | |name| |]|]; try discriminate.
  simpl. unfold typed in *. simpl. rewrite andb_true_r.
  apply andb_prop in Ht as [Ht _]. exact Ht.
Qed.

Lemma fetchData_typed (o1 o2 o3 : Outcome) (w : World) :
  typed (app w) = true ->
  keeps namespaces_reply o1 = true -> keeps stats_reply o2 = true ->
  keeps recent_reply o3 = true ->
  typed (app (world_of (fetchData r o1 o2 o3 w))) = true.
Proof.
  intros Ht H1 H2 H3.
  destruct (fails o1 || fails o2 || fails o3) eqn:Hf.
  { destruct (fetchData_failed_eq r o1 o2 o3 w Hf) as (-> & _). exact Ht. }
  destruct (sends_requests r) eqn:Hs.
  2:{ rewrite (fetchData_unsent o1 o2 o3 w Hs). exact Ht. }
  apply orb_false_elim in Hf as [Hf Hf3]. apply orb_false_elim in Hf as [Hf1 Hf2].
  destruct o1 as [|res1]; [discriminate|].
  destruct o2 as [|res2]; [discriminate|].
  destruct o3 as [|res3]; [discriminate|].
  simpl in Hf1, Hf2, Hf3, H1, H2, H3.
  destruct (body res1) as [nsData|] eqn:Hb1; [|discriminate].
  destruct (body res2) as [statsData|] eqn:Hb2; [|discriminate].
  destruct (body res3) as [recentData|] eqn:Hb3; [|discriminate].
  assert (Hn : exists nss, get_prop nsData (u16 "namespaces") = Ok nss
                           /\ is_namespace_list nss = true).
  { destruct nsData as [| | | | | |props]; try discriminate. simpl in *.
    destruct (own props (u16 "namespaces")) as [nss|]; [|discriminate]. eauto. }
  assert (Hd : exists docs, get_prop recentData (u16 "documents") = Ok docs
                            /\ is_array docs = true).
  { destruct recentData as [| | | | | |props]; try discriminate. simpl in *.
    destruct (own props (u16 "documents")) as [docs|]; [|discriminate]. eauto. }
  destruct Hn as (nss & Hn & Hnl), Hd as (docs & Hd & Hda).
  destruct (fetchData_applied_eq r res1 res2 res3 nsData statsData recentData nss docs w
              Hs Hb1 Hb2 Hb3 Hn Hd) as (-> & _ & _).
  apply deriveSelection_typed; [exact H1|].
  unfold typed, applied in *. simpl.
  destruct nss; try discriminate. destruct docs; try discriminate.
  unfold js_or. simpl. simpl in Hnl. unfold stats_reply in H2.
  rewrite Hnl, H2. simpl.
  apply andb_prop in Ht as [_ Ht]. exact Ht.
Qed.

End Typed.

(** X13: when every reply of the backend that can be read has the shape of
    its endpoint, the state keeps its shape through every sync, whatever
    fails: [namespaces] is a list of named, counted namespaces, [stats] an
    object, [recentDocs] an array, and the selection a string.  Submissions
    and the inputs of the page keep it too; and in such a state the target
    namespace of a submission is always a string. *)
Theorem X13_state_keeps_its_shape `{Platform} (r : AppState) (w : World) :
  typed (app w) = true ->
  (forall o1 o2 o3,
      keeps namespaces_reply o1 = true -> keeps stats_reply o2 = true ->
      keeps recent_reply o3 = true ->
      typed (app (world_of (fetchData r o1 o2 o3 w))) = true)
  /\ (forall o, typed (app (world_of (handleIngest r o w))) = true)
  /\ (forall value,
        typed (select_onChange value (app w)) = true
        /\ typed (newNamespace_onChange value (app w)) = true
        /\ typed (text_onChange value (app w)) = true
        /\ typed (pill_onClick value (app w)) = true)
  /\ typed (all_pill_onClick (app w)) = true
  /\ exists ns, target_namespace (app w) = JStr ns.
Proof.
  intros Ht. split; [|split; [|split; [|split]]].
  - intros o1 o2 o3. apply fetchData_typed. exact Ht.
  - intros o.
    destruct (handleIngest_paths r o w)
      as [(Hv & ->)|[(Hv & Hs & m & ->)|(Hv & Hs & ns & _ & ->)]]; exact Ht.
  - intros value. repeat split; try exact Ht.
    unfold typed in *. simpl. apply andb_prop in Ht as [Ht _]. rewrite Ht. reflexivity.
  - exact Ht.
  - unfold typed in Ht. apply andb_prop in Ht as [_ Hsel].
    rewrite target_namespace_eq.
    destruct (trim (newNamespace (app w))); [|eexists; reflexivity].
    destruct (selectedNamespace (app w)); try discriminate. eexists. reflexivity.
Qed.

Lemma X13_witness :
  typed (app Sample.world) = true
  /\ typed (app (world_of (fetchData (H := Sample.platform) Sample.unselected
                             (Sample.reply 200 (Some Sample.namespaces_body))
                             (Sample.reply 500 None)
                             (Sample.reply 200 (Some Sample.recent_body))
                             Sample.world))) = true.
Proof.
  split; [reflexivity|].
  exact (proj1 (X13_state_keeps_its_shape (H := Sample.platform) Sample.unselected
                  Sample.world eq_refl)
           (Sample.reply 200 (Some Sample.namespaces_body)) (Sample.reply 500 None)
           (Sample.reply 200 (Some Sample.recent_body)) eq_refl eq_refl eq_refl).
Defined.

(** ** The filter pills *)

Lemma str_eqb_eq (a b : jsstring) : str_eqb a b = true <-> a = b.
Proof.
  revert b. induction a as [|x a IH]; intros [|y b]; simpl; split;
    try congruence; try discriminate.
  - intros Hxy. apply andb_prop in Hxy as [Hx Ha].
    apply N.eqb_eq in Hx. apply IH in Ha. congruence.
  - intros Heq. injection Heq as -> ->. rewrite N.eqb_refl. apply IH. reflexivity.
Qed.

Lemma str_eqb_refl (a : jsstring) : str_eqb a a = true.
Proof. apply str_eqb_eq. reflexivity. Qed.

Lemma str_eqb_neq (a b : jsstring) : a <> b -> str_eqb a b = false.
Proof.
  intros Hne. destruct (str_eqb a b) eqn:Heq; [|reflexivity].
  apply str_eqb_eq in Heq. contradiction.
Qed.

(** X14: a click on the pill of a namespace toggles that pill and switches
    every other namespace pill off, and writes nothing but the filter.  The
    "All" pill is highlighted afterwards exactly when the clicked pill was
    on, or when the name is the empty string: a namespace with an empty
    name cannot be filtered on. *)
Theorem X14_pill_click (name : jsstring) (r : AppState) :
  pill_active (pill_onClick name r) name = negb (pill_active r name)
  /\ (forall other, other <> name -> pill_active (pill_onClick name r) other = false)
  /\ all_pill_active (pill_onClick name r)
     = (pill_active r name || match name with [] => true | _ => false end)
  /\ with_filterNamespace (filterNamespace r) (pill_onClick name r) = r.
Proof.
  unfold pill_active, pill_onClick, all_pill_active.
  destruct (strict_eq_string (filterNamespace r) name) eqn:Hact; simpl.
  - repeat split. destruct r; reflexivity.
  - rewrite str_eqb_refl. repeat split.
    + intros other Hne. apply str_eqb_neq. congruence.
    + destruct name; reflexivity.
    + destruct r; reflexivity.
Qed.

Lemma X14_witness :
  pill_active (pill_onClick (u16 "ProjectA") Sample.render) (u16 "ProjectA") = true
  /\ pill_active (pill_onClick (u16 "ProjectA") Sample.render) (u16 "ProjectB") = false.
Proof.
  split.
  - exact (proj1 (X14_pill_click (u16 "ProjectA") Sample.render)).
  - exact (proj1 (proj2 (X14_pill_click (u16 "ProjectA") Sample.render))
             (u16 "ProjectB") ltac:(discriminate)).
Defined.

Lemma filter_pill_absent (f : jsstring) (names : list jsstring) :
  ~ In f names -> filter (fun n => str_eqb f n) names = [].
Proof.
  induction names as [|n names IH]; simpl; [reflexivity|].
  intros Hnot. rewrite str_eqb_neq by (intros ->; apply Hnot; left; reflexivity).
  apply IH. intros Hin. apply Hnot. right. exact Hin.
Qed.

Lemma filter_pill_present (f : jsstring) (names : list jsstring) :
  NoDup names -> In f names -> filter (fun n => str_eqb f n) names = [f].
Proof.
  induction names as [|n names IH]; simpl; [contradiction|].
  intros Hnd Hin. inversion Hnd as [|? ? Hn Hnd']; subst.
  destruct Hin as [->|Hin].
  - rewrite str_eqb_refl, filter_pill_absent by exact Hn. reflexivity.
  - rewrite str_eqb_neq by (intros ->; contradiction). apply IH; assumption.
Qed.

(** X15: with pills of distinct, non-empty names, exactly one pill is
    highlighted when the filter is null ("All") or is one of the names (that
    namespace's pill); when the filter is a name that is no longer in the
    list, no pill is highlighted at all. *)
Theorem X15_highlighted_pills (r : AppState) (names : list jsstring) :
  NoDup names -> ~ In [] names ->
  (filterNamespace r = JNull -> active_pills r names = 1%nat)
  /\ (forall f, filterNamespace r = JStr f -> In f names -> active_pills r names = 1%nat)
  /\ (forall f, filterNamespace r = JStr f -> f <> [] -> ~ In f names ->
      active_pills r names = 0%nat).
Proof.
  intros Hnd Hne. unfold active_pills, all_pill_active.
  split; [|split].
  - intros Hf. rewrite Hf.
    rewrite (filter_ext (pill_active r) (fun _ => false))
      by (intros n; unfold pill_active; rewrite Hf; reflexivity).
    assert (Hnil : filter (fun _ : jsstring => false) names = [])
      by (clear; induction names; simpl; auto).
    rewrite Hnil. reflexivity.
  - intros f Hf Hin. rewrite Hf.
    rewrite (filter_ext (pill_active r) (fun n => str_eqb f n))
      by (intros n; unfold pill_active; rewrite Hf; reflexivity).
    rewrite filter_pill_present by assumption.
    destruct f; [contradiction|reflexivity].
  - intros f Hf Hfne Hnot. rewrite Hf.
    rewrite (filter_ext (pill_active r) (fun n => str_eqb f n))
      by (intros n; unfold pill_active; rewrite Hf; reflexivity).
    rewrite filter_pill_absent by assumption.
    destruct f; [contradiction|reflexivity].
Qed.

Lemma X15_witness :
  active_pills (with_filterNamespace (JStr (u16 "Gone")) Sample.render)
    [u16 "ProjectB"; u16 "ProjectA"] = 0%nat
  /\ active_pills (with_filterNamespace (JStr (u16 "ProjectA")) Sample.render)
       [u16 "ProjectB"; u16 "ProjectA"] = 1%nat.
Proof.
  assert (Hnd : NoDup [u16 "ProjectB"; u16 "ProjectA"]).
  { repeat constructor; simpl; intuition discriminate. }
  assert (Hne : ~ In [] [u16 "ProjectB"; u16 "ProjectA"]).
  { simpl. intuition discriminate. }
  split.
  - apply (proj2 (proj2 (X15_highlighted_pills
                           (with_filterNamespace (JStr (u16 "Gone")) Sample.render)
                           _ Hnd Hne)) (u16 "Gone") eq_refl).
    + discriminate.
    + simpl. intuition discriminate.
  - apply (proj1 (proj2 (X15_highlighted_pills
                           (with_filterNamespace (JStr (u16 "ProjectA")) Sample.render)
                           _ Hnd Hne)) (u16 "ProjectA") eq_refl).
    right. left. reflexivity.
Defined.

(** X16: after a click on the pill of a namespace, every sync of the new
    render fetches [API_URL/recent?limit=10&namespace=] followed by the name
    of the pill as it is, not encoded, unless the click switched the pill
    off or the name is the empty string: then it fetches
    [API_URL/recent?limit=10], with no namespace in the query. *)
Theorem X16_pill_click_sets_the_query `{Platform} (api name : jsstring) (r : AppState)
    (o1 o2 o3 : Outcome) (w : World) :
  map (Url.url api) (requests (trace_of (fetchData (pill_onClick name r) o1 o2 o3 w)))
  = [api ++ u16 "/namespaces"; api ++ u16 "/stats";
     api ++ u16 "/recent?limit=10"
     ++ (if pill_active r name then []
         else match name with
              | [] => []
              | _ :: _ => u16 "&namespace=" ++ name
              end)].
Proof.
  destruct (fetchData_cases (pill_onClick name r) o1 o2 o3 w) as (_ & _ & _ & _ & -> & _).
  unfold fetchData_requests, bind, fetch, emit, lift, ret, pill_onClick, pill_active.
  destruct (strict_eq_string (filterNamespace r) name); simpl; [reflexivity|].
  destruct name; reflexivity.
Qed.

Lemma names_of_namespaces (l : list JsVal) :
  forallb is_namespace l = true -> exists names, names_of l = Ok (map JStr names).
Proof.
  induction l as [|ns l IH]; simpl; [exists []; reflexivity|].
  intros Ht. apply andb_prop in Ht as [Hns Hl].
  destruct (IH Hl) as (names & ->).
  destruct ns as [| | | | | |props]; try discriminate. simpl in *.
  destruct (own props (u16 "name")) as [[| | | |name| |]|]; try discriminate.
  exists (name :: names). reflexivity.
Qed.

(** X17: the options of the select and the pills are built by
    [namespaces.map].  In a state that has its shape this succeeds and every
    name is a string; in a state whose [namespaces] is not an array it
    throws, and a sync puts the state there when the [namespaces] of a reply
    is truthy but not an array. *)
Theorem X17_building_the_pills `{Platform} (s : AppState) :
  (typed s = true -> exists names, namespace_names s = Ok (map JStr names))
  /\ (is_array (namespaces s) = false -> namespace_names s = Throw TypeError)
  /\ (forall (r : AppState) (res1 res2 res3 : Response)
             (nsData statsData recentData nss docs : JsVal) (w : World),
        s = app (world_of (fetchData r (Responded res1) (Responded res2)
                             (Responded res3) w)) ->
        sends_requests r = true ->
        body res1 = Some nsData -> body res2 = Some statsData ->
        body res3 = Some recentData ->
        get_prop nsData (u16 "namespaces") = Ok nss ->
        get_prop recentData (u16 "documents") = Ok docs ->
        truthy nss = true -> is_array nss = false ->
        namespace_names s = Throw TypeError).
Proof.
  assert (Hnot : is_array (namespaces s) = false -> namespace_names s = Throw TypeError).
  { unfold namespace_names. destruct (namespaces s); try reflexivity. discriminate. }
  split; [|split; [exact Hnot|]].
  - unfold typed, namespace_names. intros Ht.
    apply andb_prop in Ht as [Ht _]. apply andb_prop in Ht as [Ht _].
    apply andb_prop in Ht as [Ht _].
    destruct (namespaces s) as [| | | | |l|]; try discriminate.
    apply names_of_namespaces. exact Ht.
  - intros r res1 res2 res3 nsData statsData recentData nss docs w -> Hs Hb1 Hb2 Hb3
           Hn Hd Htruthy Harr.
    unfold namespace_names.
    destruct (fetchData_applied_eq r res1 res2 res3 nsData statsData recentData nss docs w
                Hs Hb1 Hb2 Hb3 Hn Hd) as (-> & _ & _).
    destruct (deriveSelection_frame r nsData
                {| app := applied nss statsData docs (app w);
                   timers := timers w; clock := clock w |}) as (-> & _).
    simpl. unfold js_or. rewrite Htruthy.
    destruct nss; try reflexivity. discriminate.
Qed.

Lemma X17_witness :
  typed Sample.render = true
  /\ namespace_names Sample.render = Ok [JStr (u16 "ProjectA")]
  /\ namespace_names
       (app (world_of (fetchData (H := Sample.platform) Sample.render
                         (Sample.reply 200
                            (Some (JObj [(u16 "namespaces", JStr (u16 "none"))])))
                         (Sample.reply 200 (Some Sample.stats_body))
                         (Sample.reply 200 (Some Sample.recent_body))
                         Sample.world)))
     = Throw TypeError.
Proof.
  split; [reflexivity|]. split; [reflexivity|].
  exact (proj2 (proj2 (X17_building_the_pills (H := Sample.platform) _))
           Sample.render
           {| status := 200;
              body := Some (JObj [(u16 "namespaces", JStr (u16 "none"))]) |}
           {| status := 200; body := Some Sample.stats_body |}
           {| status := 200; body := Some Sample.recent_body |}
           _ _ _ _ _ Sample.world eq_refl eq_refl eq_refl eq_refl eq_refl eq_refl eq_refl
           eq_refl eq_refl).
Defined.

(** ** formatTime by elapsed milliseconds *)

(** X18: in terms of the milliseconds elapsed between the timestamp and the
    clock, [formatTime] says "just now" below one minute (and for a
    timestamp in the future), then whole minutes, from 1 to 59, below one
    hour, then whole hours, from 1 to 23, below one day, then the date.  It
    never says "0m ago", "60m ago", "0h ago" or "24h ago". *)
Theorem X18_formatTime_by_elapsed_time `{Platform} (now d : Z) (timestamp : JsVal) :
  truthy timestamp = true -> Date_new timestamp = Ok (Some d) ->
  (now - d < 60000 -> formatTime now timestamp = Ok (u16 "just now"))
  /\ (60000 <= now - d < 3600000 ->
      formatTime now timestamp = Ok (Number_toString ((now - d) / 60000) ++ u16 "m ago")
      /\ 1 <= (now - d) / 60000 <= 59)
  /\ (3600000 <= now - d < 86400000 ->
      formatTime now timestamp = Ok (Number_toString ((now - d) / 3600000) ++ u16 "h ago")
      /\ 1 <= (now - d) / 3600000 <= 23)
  /\ (86400000 <= now - d ->
      formatTime now timestamp = Ok (Date_toLocaleDateString (Some d))).
Proof.
  intros Ht Hd. unfold formatTime. rewrite Ht, Hd. simpl.
  set (e := now - d).
  assert (Hmin : e / 1000 / 60 = e / 60000) by (rewrite Z.div_div by lia; reflexivity).
  assert (Hhour : e / 1000 / 3600 = e / 3600000) by (rewrite Z.div_div by lia; reflexivity).
  assert (Hlt : forall k, 0 < k -> e < 1000 * k -> (e / 1000 <? k) = true).
  { intros k Hk He. apply Z.ltb_lt. apply Z.div_lt_upper_bound; lia. }
  assert (Hge : forall k, 1000 * k <= e -> (e / 1000 <? k) = false).
  { intros k He. apply Z.ltb_ge. apply Z.div_le_lower_bound; lia. }
  repeat split.
  - intros He. rewrite (Hlt 60) by lia. reflexivity.
  - rewrite (Hge 60), (Hlt 3600), Hmin by lia. reflexivity.
  - apply Z.div_le_lower_bound; lia.
  - assert (e / 60000 < 60) by (apply Z.div_lt_upper_bound; lia). lia.
  - rewrite (Hge 60), (Hge 3600), (Hlt 86400), Hhour by lia. reflexivity.
  - apply Z.div_le_lower_bound; lia.
  - assert (e / 3600000 < 24) by (apply Z.div_lt_upper_bound; lia). lia.
  - intros He. rewrite (Hge 60), (Hge 3600), (Hge 86400) by lia. reflexivity.
Qed.

Lemma X18_witness :
  formatTime (H := Sample.platform) 3600999 (JNum 1000) = Ok (u16 "59m ago")
  /\ formatTime (H := Sample.platform) 1000 (JNum 5000) = Ok (u16 "just now").
Proof.
  split.
  - exact (proj1 (proj1 (proj2
      (X18_formatTime_by_elapsed_time (H := Sample.platform) 3600999 1000 (JNum 1000)
         eq_refl eq_refl)) ltac:(lia))).
  - exact (proj1
      (X18_formatTime_by_elapsed_time (H := Sample.platform) 1000 5000 (JNum 5000)
         eq_refl eq_refl) ltac:(lia)).
Defined.

(** ** Notifications over time *)

Section Dismissal.

Lemma filter_due_all (l : list Z) (t : Z) :
  existsb (fun due => due <=? t) l = false -> filter (fun due => t <? due) l = l.
Proof.
  induction l as [|a l IH]; simpl; [reflexivity|].
  intros Hex. apply orb_false_elim in Hex as [Ha Hl].
  apply Z.leb_gt in Ha. apply Z.ltb_lt in Ha. rewrite Ha, IH by exact Hl. reflexivity.
Qed.

Lemma advance_keeps_invariants (t : Z) (w : World) :
  clock w <= t -> dismissal_pending w -> timers_in_window w ->
  dismissal_pending (advance t w) /\ timers_in_window (advance t w).
Proof.
  intros Ht Hp Hw. unfold dismissal_pending, timers_in_window, advance in *. simpl.
  split.
  - destruct (existsb (fun due => due <=? t) (timers w)) eqn:Hex; simpl.
    + intros Hsome. contradiction Hsome. reflexivity.
    + rewrite filter_due_all by exact Hex. exact Hp.
  - apply Forall_forall. intros due Hin. apply filter_In in Hin as [Hin Hlt].
    apply Z.ltb_lt in Hlt. rewrite Forall_forall in Hw. specialize (Hw due Hin). lia.
Qed.

Lemma showToast_keeps_invariants (a : AppState) (t : Toast) (w : World) :
  timers_in_window w ->
  dismissal_pending {| app := with_toast (Some t) a;
                       timers := timers w ++ [clock w + 4000]; clock := clock w |}
  /\ timers_in_window {| app := with_toast (Some t) a;
                         timers := timers w ++ [clock w + 4000]; clock := clock w |}.
Proof.
  intros Hw. unfold dismissal_pending, timers_in_window in *. simpl. split.
  - intros _ Hnil. apply app_eq_nil in Hnil as [_ Hnil]. discriminate.
  - apply Forall_app. split; [exact Hw|]. constructor; [lia|constructor].
Qed.

End Dismissal.

(** X19: however submissions, syncs, inputs and the passing of time follow
    one another from a page with no notification, a notification on screen
    always has a dismiss timer pending, and every pending timer is due
    within 4000 ms.  So 4000 ms later, if nothing is pushed in between, no
    notification is on screen and no timer is left. *)
Theorem X19_notifications_are_dismissed `{Platform} (w0 w : World) :
  toast (app w0) = None -> timers w0 = [] -> reachable w0 w ->
  dismissal_pending w
  /\ timers_in_window w
  /\ toast (app (advance (clock w + 4000) w)) = None
  /\ timers (advance (clock w + 4000) w) = [].
Proof.
  intros Htoast Htimers Hreach.
  assert (Hinv : dismissal_pending w /\ timers_in_window w).
  { induction Hreach as [|w w' Hreach [Hp Hw] Hstep].
    - unfold dismissal_pending, timers_in_window. rewrite Htoast, Htimers.
      split; [intros Hsome; contradiction Hsome; reflexivity|constructor].
    - destruct Hstep as [r o w|r o1 o2 o3 w|f w Hf|t w Ht].
      + destruct (handleIngest_paths r o w)
          as [(_ & ->)|[(_ & _ & m & ->)|(_ & _ & ns & _ & ->)]];
          apply (showToast_keeps_invariants _ _ w Hw).
      + destruct (fetchData_cases r o1 o2 o3 w) as (_ & Ht & Hc & _ & _ & _ & Hcases).
        assert (Hsame : toast (app (world_of (fetchData r o1 o2 o3 w))) = toast (app w)).
        { destruct Hcases as [(_ & ->)|[(nss & st & _ & ->)|[(nss & st & docs & _ & ->)
                             |(nss & st & docs & name & _ & _ & ->)]]]; reflexivity. }
        unfold dismissal_pending, timers_in_window in *.
        rewrite Hsame, Ht, Hc. split; assumption.
      + unfold dismissal_pending, timers_in_window in *. simpl.
        rewrite Hf. split; assumption.
      + apply advance_keeps_invariants; assumption. }
  destruct Hinv as [Hp Hw]. split; [exact Hp|]. split; [exact Hw|].
  assert (Hnone : filter (fun due => clock w + 4000 <? due) (timers w) = []).
  { unfold timers_in_window in Hw. induction Hw as [|due l Hd Hl IH]; simpl;
      [reflexivity|].
    replace (clock w + 4000 <? due) with false by (symmetry; apply Z.ltb_ge; lia).
    exact IH. }
  split; [|exact Hnone].
  unfold advance. simpl.
  destruct (existsb (fun due => due <=? clock w + 4000) (timers w)) eqn:Hex;
    [reflexivity|].
  unfold dismissal_pending in Hp.
  rewrite <- (filter_due_all _ _ Hex), Hnone in Hp.
  destruct (toast (app w)); [|reflexivity].
  contradiction Hp; [discriminate|reflexivity].
Qed.

Lemma X19_witness :
  reachable (H := Sample.platform) Sample.start
    (world_of (handleIngest Sample.blank Rejected Sample.start))
  /\ toast (app (advance
                   (clock (world_of (handleIngest Sample.blank Rejected Sample.start))
                    + 4000)
                   (world_of (handleIngest Sample.blank Rejected Sample.start))))
     = None.
Proof.
  assert (Hreach : reachable (H := Sample.platform) Sample.start
                     (world_of (handleIngest Sample.blank Rejected Sample.start))).
  { apply (reach_step _ Sample.start); [apply reach_start|]. apply step_submit. }
  split; [exact Hreach|].
  exact (proj1 (proj2 (proj2
    (X19_notifications_are_dismissed (H := Sample.platform) Sample.start _
       eq_refl eq_refl Hreach)))).
Defined.

(** ** The periodic sync *)

Section Lifecycle.

Lemma cleaned_has_no_interval (m : Effect.Mounted) (current : option AppState) :
  Effect.consistent m current -> Effect.intervals (Effect.cleaned m) = [].
Proof.
  unfold Effect.consistent, Effect.cleaned, Effect.cleanup, Effect.clearInterval.
  destruct current as [r|].
  - intros (i & d & Hi & ->). simpl. rewrite Hi. simpl.
    rewrite Nat.eqb_refl. reflexivity.
  - intros (Hi & ->). exact Hi.
Qed.

Lemma effect_eq (r : AppState) (p : Effect.Page) :
  Effect.effect r p
  = (Effect.next_id p,
     {| Effect.world := Effect.world p;
        Effect.intervals :=
          Effect.intervals p
          ++ [{| Effect.id := Effect.next_id p; Effect.callback := r;
                 Effect.due := clock (Effect.world p) + 10000 |}];
        Effect.next_id := S (Effect.next_id p) |},
     trace_of (fetchData_call r (Effect.world p))).
Proof.
  unfold Effect.effect.
  rewrite (fetchData_call_world r (Effect.world p) (Effect.world p)). reflexivity.
Qed.

Lemma step_consistent (s : Effect.Step) (m : Effect.Mounted) (current : option AppState) :
  Effect.consistent m current ->
  Effect.consistent (fst (Effect.step s m)) (Effect.last_run [s] current).
Proof.
  intros Hc. destruct s as [r| |]; simpl.
  - rewrite effect_eq. simpl. rewrite (cleaned_has_no_interval m current Hc).
    eexists _, _. split; reflexivity.
  - split; [exact (cleaned_has_no_interval m current Hc)|reflexivity].
  - destruct current as [r|].
    + destruct Hc as (i & d & Hi & Hh). rewrite Hi. simpl.
      unfold Effect.fire.
      rewrite (fetchData_call_world _ (Effect.world (Effect.page m))). simpl.
      rewrite Hi. simpl. unfold Effect.reschedule. simpl. rewrite Nat.eqb_refl.
      eexists _, _. split; [reflexivity|exact Hh].
    + destruct Hc as (Hi & Hh). rewrite Hi. simpl. split; assumption.
Qed.

Lemma steps_consistent (l : list Effect.Step) :
  forall (m : Effect.Mounted) (current : option AppState),
    Effect.consistent m current ->
    Effect.consistent (fst (Effect.steps l m)) (Effect.last_run l current).
Proof.
  induction l as [|s l IH]; intros m current Hc; simpl; [exact Hc|].
  pose proof (step_consistent s m current Hc) as Hs.
  destruct (Effect.step s m) as [m1 t1]. simpl in Hs.
  specialize (IH m1 _ Hs).
  destruct (Effect.steps l m1) as [m2 t2]. simpl in *.
  destruct s; exact IH.
Qed.

End Lifecycle.

(** X20: however React runs and cleans up the effect and however often the
    interval fires, the page never holds more than one live interval: while
    the component is mounted there is exactly one, calling the [fetchData]
    of the render whose effect ran last, and once it is unmounted there is
    none, so no sync is started by a timer after that. *)
Theorem X20_one_interval_at_most (l : list Effect.Step) (w : World) :
  match Effect.last_run l None with
  | Some r =>
      exists i d,
        Effect.intervals (Effect.page (fst (Effect.steps l (Effect.fresh w))))
        = [{| Effect.id := i; Effect.callback := r; Effect.due := d |}]
  | None =>
      Effect.intervals (Effect.page (fst (Effect.steps l (Effect.fresh w)))) = []
      /\ forall n,
           snd (Effect.steps (repeat Effect.Tick n)
                  (fst (Effect.steps l (Effect.fresh w)))) = []
  end.
Proof.
  pose proof (steps_consistent l (Effect.fresh w) None
                (conj eq_refl eq_refl)) as Hc.
  unfold Effect.consistent in Hc.
  destruct (Effect.last_run l None) as [r|].
  - destruct Hc as (i & d & Hi & _). eauto.
  - destruct Hc as [Hi Hh]. split; [exact Hi|].
    intros n. induction n as [|n IH]; simpl; [reflexivity|].
    rewrite Hi. simpl.
    destruct (Effect.steps (repeat Effect.Tick n) _) as [m2 t2]. simpl in *.
    exact IH.
Qed.

Section Polling.

Variables (r : AppState) (w0 : World).

Lemma ticks_of_one_interval (n : nat) :
  forall (m : Effect.Mounted) (i : nat),
    Effect.intervals (Effect.page m)
    = [{| Effect.id := i; Effect.callback := r;
          Effect.due := clock (Effect.world (Effect.page m)) + 10000 |}] ->
    clock (Effect.world (Effect.page (fst (Effect.steps (repeat Effect.Tick n) m))))
    = clock (Effect.world (Effect.page m)) + 10000 * Z.of_nat n
    /\ syncs (snd (Effect.steps (repeat Effect.Tick n) m)) = n
    /\ requests (snd (Effect.steps (repeat Effect.Tick n) m))
       = List.concat (repeat (requests (trace_of (fetchData_call r w0))) n).
Proof.
  induction n as [|n IH]; intros m i Hi.
  - simpl. repeat split. lia.
  - cbn [repeat Effect.steps Effect.step]. rewrite Hi. cbn [Effect.earliest].
    unfold Effect.fire. cbn [Effect.callback Effect.due].
    rewrite (fetchData_call_world r w0). rewrite Hi.
    cbn [map]. unfold Effect.reschedule. cbn [Effect.id]. rewrite Nat.eqb_refl.
    cbn [Effect.callback Effect.due].
    match goal with
    | |- context [Effect.steps (repeat Effect.Tick n) ?m1] =>
        specialize (IH m1 i); destruct (Effect.steps (repeat Effect.Tick n) m1) as [m2 t2]
    end.
    cbn [fst snd Effect.page Effect.world Effect.intervals advance clock] in *.
    destruct IH as (Hclock & Hsyncs & Hreq).
    { f_equal. f_equal. lia. }
    rewrite syncs_app, requests_app, Hsyncs, Hreq, Hclock.
    destruct (fetchData_call_eq r w0) as (tr & Hcall & Hone & _).
    rewrite Hcall in *. cbn [trace_of snd] in *. rewrite Hone.
    split; [lia|]. split; reflexivity.
Qed.

End Polling.

(** X21: when the effect of a render runs, a sync is started at once and
    then one every 10000 ms for as long as the effect is not run again:
    after [n] ticks the clock has advanced by [10000 * n] ms and [n + 1]
    syncs were started.  Each of them sends the requests of that render, so
    with the filter the render had. *)
Theorem X21_polling_schedule (r : AppState) (w : World) (n : nat) :
  syncs (snd (Effect.steps (Effect.Run r :: repeat Effect.Tick n) (Effect.fresh w)))
  = S n
  /\ clock (Effect.world (Effect.page
              (fst (Effect.steps (Effect.Run r :: repeat Effect.Tick n)
                      (Effect.fresh w)))))
     = clock w + 10000 * Z.of_nat n
  /\ requests (snd (Effect.steps (Effect.Run r :: repeat Effect.Tick n)
                      (Effect.fresh w)))
     = List.concat (repeat (requests (trace_of (fetchData_call r w))) (S n)).
Proof.
  cbn [Effect.steps Effect.step]. rewrite effect_eq.
  cbn [Effect.cleaned Effect.fresh Effect.handle Effect.page Effect.world
       Effect.intervals Effect.next_id app].
  match goal with
  | |- context [Effect.steps (repeat Effect.Tick n) ?m1] =>
      destruct (ticks_of_one_interval r w n m1 O eq_refl) as (Hclock & Hsyncs & Hreq);
      destruct (Effect.steps (repeat Effect.Tick n) m1) as [m2 t2]
  end.
  cbn [fst snd Effect.page Effect.world] in *.
  rewrite syncs_app, requests_app, Hsyncs, Hreq, Hclock.
  destruct (fetchData_call_eq r w) as (tr & Hcall & Hone & _).
  rewrite Hcall. cbn [trace_of snd]. rewrite Hone. repeat split.
Qed.

(** ** What restarts the polling *)

Lemma same_value_refl (v : JsVal) : Effect.primitive v = true -> Effect.same_value v v = Some true.
Proof.
  destruct v; simpl; try discriminate; intros _; try reflexivity.
  - destruct b; reflexivity.
  - rewrite Z.eqb_refl. reflexivity.
  - rewrite str_eqb_refl. reflexivity.
Qed.

Lemma renewed_same_deps (r r' : AppState) :
  Effect.primitive (filterNamespace r) = true -> Effect.primitive (selectedNamespace r) = true ->
  filterNamespace r' = filterNamespace r -> selectedNamespace r' = selectedNamespace r ->
  Effect.renewed r r' = Some false.
Proof.
  intros Hf Hs Hf' Hs'. unfold Effect.renewed. rewrite Hf', Hs'.
  rewrite (same_value_refl _ Hf), (same_value_refl _ Hs). reflexivity.
Qed.

Lemma run_starts_one_sync (r : AppState) (m : Effect.Mounted) :
  syncs (snd (Effect.step (Effect.Run r) m)) = 1%nat.
Proof.
  simpl. rewrite effect_eq. simpl.
  destruct (fetchData_call_eq r (Effect.world (Effect.cleaned m))) as (tr & -> & Hone & _).
  exact Hone.
Qed.

(** X22: typing in the text box or the new-namespace field, and submitting,
    leave [fetchData] the same function, so the commit of the new render
    does not run the effect again: the interval in place keeps its handle
    and its schedule, and the commit starts no sync.  The only sync a
    submission starts is the one the handler calls itself when it succeeds
    (line 72). *)
Theorem X22_drafts_do_not_rerun_the_effect (w : World) (m : Effect.Mounted) :
  Effect.primitive (filterNamespace (app w)) = true ->
  Effect.primitive (selectedNamespace (app w)) = true ->
  (forall value, Effect.commit (app w) (text_onChange value (app w)) m = Some (m, []))
  /\ (forall value,
        Effect.commit (app w) (newNamespace_onChange value (app w)) m = Some (m, []))
  /\ (forall r o,
        Effect.commit (app w) (app (world_of (handleIngest r o w))) m = Some (m, [])
        /\ syncs (trace_of (handleIngest r o w))
           = (if succeeds r o then 1%nat else 0%nat)).
Proof.
  intros Hf Hs. unfold Effect.commit. repeat split.
  - intros value. rewrite renewed_same_deps; auto.
  - intros value. rewrite renewed_same_deps; auto.
  - rewrite renewed_same_deps; auto;
      destruct (handleIngest_paths r o w)
        as [(_ & ->)|[(_ & _ & msg & ->)|(_ & _ & ns & _ & ->)]]; reflexivity.
  - destruct (fetchData_call_eq r w) as (tr & Hcall & Hone & _).
    assert (Htr : trace_of (fetchData_call r w) = tr) by (rewrite Hcall; reflexivity).
    destruct (handleIngest_paths r o w)
      as [(Hv & ->)|[(Hv & Hsucc & msg & ->)|(Hv & Hsucc & ns & _ & ->)]].
    + unfold succeeds. rewrite Hv. reflexivity.
    + rewrite Hsucc. reflexivity.
    + rewrite Hsucc, Htr. unfold trace_of. simpl. rewrite syncs_app, Hone. reflexivity.
Qed.

Lemma X22_witness :
  Effect.primitive (filterNamespace (app Sample.world)) = true
  /\ Effect.commit (app Sample.world)
       (app (world_of (handleIngest Sample.render (Sample.reply 200 (Some JNull))
                         Sample.world)))
       (fst (Effect.step (Effect.Run Sample.render) (Effect.fresh Sample.world)))
     = Some (fst (Effect.step (Effect.Run Sample.render) (Effect.fresh Sample.world)), [])
  /\ syncs (trace_of (handleIngest Sample.render (Sample.reply 200 (Some JNull))
                        Sample.world)) = 1%nat.
Proof.
  split; [reflexivity|].
  exact (proj2 (proj2 (X22_drafts_do_not_rerun_the_effect Sample.world _ eq_refl eq_refl))
           Sample.render (Sample.reply 200 (Some JNull))).
Defined.

(** X23: a click on a namespace pill always gives a new [fetchData], and so
    does the sync that picks the default selection, when the name it picks
    is not empty: the effect runs again, which clears the interval, starts
    one sync at once and sets a new interval.  The default selection
    therefore costs a second sync right after the first one that
    succeeds. *)
Theorem X23_selection_and_filter_restart_polling `{Platform} (w : World)
    (m : Effect.Mounted) :
  Effect.primitive (filterNamespace (app w)) = true ->
  (forall name,
      Effect.commit (app w) (pill_onClick name (app w)) m
      = Some (Effect.step (Effect.Run (pill_onClick name (app w))) m))
  /\ (forall (res1 res2 res3 : Response) (nsData statsData recentData docs first : JsVal)
             (rest : list JsVal) (n : jsstring),
        selectedNamespace (app w) = JStr [] -> sends_requests (app w) = true ->
        body res1 = Some nsData -> body res2 = Some statsData ->
        body res3 = Some recentData ->
        get_prop nsData (u16 "namespaces") = Ok (JArr (first :: rest)) ->
        get_prop recentData (u16 "documents") = Ok docs ->
        get_prop first (u16 "name") = Ok (JStr n) -> n <> [] ->
        Effect.commit (app w)
          (app (world_of (fetchData (app w) (Responded res1) (Responded res2)
                            (Responded res3) w))) m
        = Some (Effect.step
                  (Effect.Run (app (world_of (fetchData (app w) (Responded res1)
                                                (Responded res2) (Responded res3) w))))
                  m))
  /\ forall r, syncs (snd (Effect.step (Effect.Run r) m)) = 1%nat.
Proof.
  intros Hf. split; [|split; [|intros r; apply run_starts_one_sync]].
  - intros name. unfold Effect.commit, Effect.renewed, pill_onClick.
    destruct (filterNamespace (app w)) as [| | | |f| |] eqn:Hfilter;
      try discriminate; simpl; try reflexivity.
    destruct (str_eqb f name) eqn:Heq; simpl; [reflexivity|].
    rewrite Heq. reflexivity.
  - intros res1 res2 res3 nsData statsData recentData docs first rest n
           Hsel Hs Hb1 Hb2 Hb3 Hn Hd Hname Hne.
    destruct (fetchData_applied_eq (app w) res1 res2 res3 nsData statsData recentData
                (JArr (first :: rest)) docs w Hs Hb1 Hb2 Hb3 Hn Hd) as (Hworld & _ & _).
    rewrite (deriveSelection_first_eq (app w) nsData first (JStr n) rest _ Hsel Hn Hname)
      in Hworld.
    rewrite Hworld. unfold Effect.commit, Effect.renewed. simpl.
    rewrite (same_value_refl _ Hf), Hsel. simpl.
    destruct n; [contradiction|reflexivity].
Qed.

Lemma X23_witness :
  Effect.primitive (filterNamespace (app Sample.world)) = true
  /\ Effect.commit (app Sample.world) (pill_onClick (u16 "ProjectA") (app Sample.world))
       (Effect.fresh Sample.world)
     = Some (Effect.step (Effect.Run (pill_onClick (u16 "ProjectA") (app Sample.world)))
               (Effect.fresh Sample.world)).
Proof.
  split; [reflexivity|].
  exact (proj1 (X23_selection_and_filter_restart_polling (H := Sample.platform)
                  Sample.world (Effect.fresh Sample.world) eq_refl)
           (u16 "ProjectA")).
Defined.
